(** * TechLeadAgent: the persona formatter, the start-up configuration and
      the scripted driver of [src/core/agent.py] and [src/core/config.py].

    Python values are a small tagged union, the session state is a finite
    map from key strings to values, and everything the driver does that can
    be observed from outside (text on stdout, log records, calls to the
    session service and to the runner, events received from a turn's stream)
    is a list of actions.  A step that can raise returns a [Result].  The
    characters of a [string] stand for the code points of a Python [str];
    every literal of the source is ASCII. *)

From stdpp Require Import base option list strings pretty gmap fin_maps.

Local Open Scope Z_scope.

(** ** Python values and the operations the program applies to them *)

Module Py.

Inductive Val : Type :=
| VNone
| VBool (b : bool)
| VInt (z : Z)
| VStr (s : string).

#[global] Instance Val_eq_dec : EqDecision Val.
Proof. solve_decision. Defined.

(** What a statement can do: finish with a value or raise. *)
Inductive Exn : Type :=
| ValueError (msg : string)
| OtherError (kind msg : string).

Inductive Result (A : Type) : Type :=
| Ok (a : A)
| Raise (e : Exn).
#[global] Arguments Ok {A} a.
#[global] Arguments Raise {A} e.

#[global] Instance Result_ret : MRet Result := @Ok.
#[global] Instance Result_bind : MBind Result := λ A B k r,
  match r with
  | Ok a => k a
  | Raise e => Raise e
  end.

(** CPython converts an [int] to decimal text only up to
    [sys.get_int_max_str_digits()] digits, 4300 unless the interpreter is
    told otherwise; beyond that [str], [repr] and [format] raise. *)
Definition int_max_str_digits : Z := 4300.

Definition int_str_limit : Z := 10 ^ int_max_str_digits.

Definition int_too_long : Exn :=
  ValueError "Exceeds the limit (4300 digits) for integer string conversion; use sys.set_int_max_str_digits() to increase the limit".

(** [str(v)] *)
Definition str (v : Val) : Result string :=
  match v with
  | VNone => Ok "None"
  | VBool true => Ok "True"
  | VBool false => Ok "False"
  | VInt z => if Z.abs z <? int_str_limit then Ok (pretty z) else Raise int_too_long
  | VStr s => Ok s
  end.

(** [format(v, "")], what an f-string field [{v}] expands to; for the
    values above it is [str(v)]. *)
Definition format (v : Val) : Result string := str v.

(** [bool(v)], the test of [if v:] and [if not v:]. *)
Definition truthy (v : Val) : bool :=
  match v with
  | VNone => false
  | VBool b => b
  | VInt z => negb (z =? 0)
  | VStr "" => false
  | VStr _ => true
  end.

(** [s[:n]] *)
Definition slice_to (n : nat) (s : string) : string := String.substring 0 n s.

(** [repr(s)] of a [str] with no quote, backslash or control character,
    which is what the dict literal of the driver holds. *)
Definition repr_str (s : string) : string := "'" +:+ s +:+ "'".

Fixpoint repr_items (kvs : list (string * string)) : string :=
  match kvs with
  | [] => ""
  | [(k, v)] => repr_str k +:+ ": " +:+ repr_str v
  | (k, v) :: rest => repr_str k +:+ ": " +:+ repr_str v +:+ ", " +:+ repr_items rest
  end.

(** [repr] of a dict literal whose keys and values are such strings, items
    in insertion order. *)
Definition repr_dict (kvs : list (string * string)) : string :=
  "{" +:+ repr_items kvs +:+ "}".

(** [d.get(k, dflt)] and [d.get(k)] *)
Definition get (d : gmap string Val) (k : string) (dflt : Val) : Val :=
  default dflt (d !! k).

Definition get_or_none (d : gmap string Val) (k : string) : Val :=
  get d k VNone.

(** [needle in hay] for strings, as a proposition. *)
Definition contains (needle hay : string) : Prop :=
  ∃ pre post, hay = pre +:+ needle +:+ post.

Definition newline : string := String (Ascii.ascii_of_nat 10) "".

End Py.

Import Py.

Abbreviation State := (gmap string Val).

(** ** [src/core/config.py] *)

Module Config.

(** [load_dotenv()] with its default [override=False]: the variables of
    the [.env] file are added to the process environment, a variable
    already set keeps its value. *)
Definition load_dotenv (environ dotenv : gmap string string) : gmap string string :=
  environ ∪ dotenv.

(** [os.getenv(k)]: [None] when the variable is not set. *)
Definition getenv (environ : gmap string string) (k : string) : Val :=
  match environ !! k with
  | Some s => VStr s
  | None => VNone
  end.

Record Globals : Type := {
  GOOGLE_API_KEY : Val;
  MODEL_NAME : string
}.

(** The module body, run once when [src.core.config] is first imported. *)
Definition module (environ dotenv : gmap string string) : Result Globals :=
  let environ := load_dotenv environ dotenv in
  let key := getenv environ "GOOGLE_API_KEY" in
  if negb (truthy key)
  then Raise (ValueError "GOOGLE_API_KEY is missing in .env")
  else Ok {| GOOGLE_API_KEY := key; MODEL_NAME := "gemini-2.5-flash" |}.

End Config.

(** ** [src/core/agent.py]: the persona formatter and the agent record *)

(** [ReadonlyContext]: the provider reads its [state] only. *)
Record ReadonlyContext : Type := { state : State }.

(** The [instruction] of an [LlmAgent] is a string or a provider called
    with the context of the turn. *)
Inductive Instruction : Type :=
| Static (text : string)
| Dynamic (provider : ReadonlyContext → Result string).

Record LlmAgent : Type := {
  name : string;
  model : string;
  instruction : Instruction;
  output_key : option string
}.

(** The fields of the f-string are formatted from left to right, the
    topic twice; the first field that cannot be formatted raises. *)
Definition dynamic_persona_provider (context : ReadonlyContext) : Result string :=
  let use_role := get (state context) "user:role" (VStr "Intern") in
  let current_topic := get (state context) "current_topic" (VStr "General Chat") in
  role ← format use_role;
  topic ← format current_topic;
  topic_again ← format current_topic;
  Ok ("You are a strict Senior Tech Lead. "
      +:+ "You are currently mentoring a user with the rank of '" +:+ role +:+ "'. "
      +:+ "The current discussion topic is locked to: '" +:+ topic +:+ "'. "
      +:+ "If the user asks about anything else, politely refuse and steer back to "
          +:+ topic_again +:+ ". "
      +:+ "Keep answers concise and technical.").

Definition root_agent (MODEL_NAME : string) : LlmAgent := {|
  name := "TechLeadAgent";
  model := MODEL_NAME;
  instruction := Dynamic dynamic_persona_provider;
  output_key := Some "last_mentor_advice"
|}.

(** ** The collaborators of the driver

    Sessions, contents and events are the framework's types; only the
    fields the driver reads are kept. *)

Module Session.
Record t : Type := {
  id : string;
  app_name : string;
  user_id : string;
  state : State
}.
End Session.

Record Part : Type := { text : option string }.
Record Content : Type := { parts : option (list Part) }.
Record Event : Type := { content : option Content }.

#[global] Instance Part_eq_dec : EqDecision Part.
Proof. solve_decision. Defined.
#[global] Instance Content_eq_dec : EqDecision Content.
Proof. solve_decision. Defined.
#[global] Instance Event_eq_dec : EqDecision Event.
Proof. solve_decision. Defined.

(** A turn's event stream, as the driver sees it: an asynchronous generator
    that yields finitely many events and then stops or raises.  The store
    of the session service when the generator finishes is kept at its
    end. *)
Inductive Stream (Store : Type) : Type :=
| Stop (s : Store)
| Fail (e : Exn) (s : Store)
| Yield (ev : Event) (rest : Stream Store).
Arguments Stop {Store} s.
Arguments Fail {Store} e s.
Arguments Yield {Store} ev rest.

Record Runner : Type := {
  agent : LlmAgent;
  app_name : string
}.

(** The session service and the runner, over the service's store.  A call
    returns the store it leaves behind and a value or an exception. *)
Record Collaborators (Store : Type) : Type := {
  InMemorySessionService : Store;
  create_session : string → string → string → State → Store → Store * Result Session.t;
  get_session : string → string → string → Store → Store * Result (option Session.t);
  run_async : Runner → string → string → Content → Store → Stream Store
}.
Arguments InMemorySessionService {Store} _.
Arguments create_session {Store} _ _ _ _ _ _.
Arguments get_session {Store} _ _ _ _ _.
Arguments run_async {Store} _ _ _ _ _ _.

(** ** What a run of the driver does, in order *)

Inductive Level : Type := INFO | WARNING.

Inductive Action : Type :=
| Stdout (s : string)
| Log (lvl : Level) (msg : string)
| CallCreateSession (app user sid : string) (initial : State)
| CallRunAsync (user sid : string) (new_message : Content)
| Received (ev : Event)
| StreamEnd
| ReturnedSession (ret : option Session.t).

(** ** The driver's monad: a trace is written, the store is threaded and
       an exception ends the computation *)

Section Monad.
Context {Store : Type}.

Definition M (A : Type) : Type := Store → list Action * Store * Result A.

Definition ret {A} (a : A) : M A := λ s, ([], s, Ok a).

Definition bind {A B} (m : M A) (k : A → M B) : M B := λ s,
  match m s with
  | (t, s', Ok a) => let '(t', s'', r) := k a s' in (t ++ t', s'', r)
  | (t, s', Raise e) => (t, s', Raise e)
  end.

Definition emit (a : Action) : M unit := λ s, ([a], s, Ok tt).

Definition call {A} (f : Store → Store * Result A) : M A := λ s,
  let '(s', r) := f s in ([], s', r).

(** A computation without effect on the trace or the store. *)
Definition lift {A} (r : Result A) : M A := λ s, ([], s, r).

(** [print(text, end=end_)] *)
Definition print (text end_ : string) : M unit := emit (Stdout (text +:+ end_)).

(** [logger.info(msg)] and [logger.warning(msg)]; the logger's level is
    INFO, so both are written. *)
Definition log (lvl : Level) (msg : string) : M unit := emit (Log lvl msg).

End Monad.

#[global] Instance M_ret {Store} : MRet (@M Store) := @ret Store.
#[global] Instance M_bind {Store} : MBind (@M Store) := λ A B k m, bind m k.

Section Loops.
Context {Store : Type}.

(** [for x in xs: body(x)] *)
Fixpoint for_each {A} (xs : list A) (body : A → M (Store:=Store) unit) : M unit :=
  match xs with
  | [] => ret tt
  | x :: xs' => body x ;; for_each xs' body
  end.

(** [async for event in it: body(event)] *)
Fixpoint async_for (it : Stream Store) (body : Event → M unit) : M unit :=
  match it with
  | Stop s' => λ _, ([StreamEnd], s', Ok tt)
  | Fail e s' => λ _, ([], s', Raise e)
  | Yield ev rest => emit (Received ev) ;; body ev ;; async_for rest body
  end.

End Loops.

(** ** [main] *)

Definition app_name_ : string := "EnterpriseApp".
Definition user_id : string := "dev_001".
Definition session_id : string := "session_alpha".

Definition initial_items : list (string * string) :=
  [("user:role", "Junior Developer"); ("current_topic", "Memory Management")].

Definition initial_state : State := list_to_map (prod_map id VStr <$> initial_items).

Definition prompts : list string :=
  ["Hi, can you help me with Python?"; "Okay, tell me about Stack and Heap."].

(** [Content(parts=[Part(text=prompt)])] *)
Definition user_message (prompt : string) : Content :=
  {| parts := Some [ {| text := Some prompt |} ] |}.

(** [if part.text:] *)
Definition text_truthy (t : option string) : bool :=
  match t with
  | None | Some "" => false
  | Some _ => true
  end.

(** [if event.content and event.content.parts:] *)
Definition has_parts (event : Event) : bool :=
  match content event with
  | None => false
  | Some c =>
      match parts c with
      | None | Some [] => false
      | Some _ => true
      end
  end.

Section Main.
Context {Store : Type} (adk : Collaborators Store).

Definition print_part (part : Part) : M (Store:=Store) unit :=
  if text_truthy (text part)
  then print ("MENTOR: " +:+ default "" (text part)) ""
  else ret tt.

Definition on_event (event : Event) : M (Store:=Store) unit :=
  if has_parts event
  then for_each (default [] (content event ≫= parts)) print_part
  else ret tt.

Definition turn (runner : Runner) (prompt : string) : M unit :=
  print (newline +:+ "USER: " +:+ prompt) newline ;;
  emit (CallRunAsync user_id session_id (user_message prompt)) ;;
  ((λ s, async_for (run_async adk runner user_id session_id (user_message prompt) s)
                   on_event s) : M unit) ;;
  print "" newline.

Definition verify (updated_session : option Session.t) : M (Store:=Store) unit :=
  match updated_session with
  | Some updated_session =>
      let saved_advice := get_or_none (Session.state updated_session) "last_mentor_advice" in
      if truthy saved_advice
      then text ← lift (str saved_advice);
           log INFO ("State 'last_mentor_advice': " +:+ slice_to 50 text +:+ "...")
      else log WARNING "State 'last_mentor_advice' is empty!"
  | None => ret tt
  end.

Definition main_body (MODEL_NAME : string) : M unit :=
  let runner := {| agent := root_agent MODEL_NAME; app_name := app_name_ |} in
  print ("--- INITIALIZING SESSION: " +:+ repr_dict initial_items +:+ " ---") newline ;;
  emit (CallCreateSession app_name_ user_id session_id initial_state) ;;
  session ← call (create_session adk app_name_ user_id session_id initial_state);
  log INFO ("Session created successfully: " +:+ Session.id session
            +:+ " for user " +:+ user_id) ;;
  for_each prompts (turn runner) ;;
  updated_session ← call (get_session adk app_name_ user_id session_id);
  emit (ReturnedSession updated_session) ;;
  verify updated_session.

(** [main()] starts from the store of a new [InMemorySessionService()]. *)
Definition main (MODEL_NAME : string) : list Action * Store * Result unit :=
  main_body MODEL_NAME (InMemorySessionService adk).

(** The script: importing [src.core.config] comes first and may raise;
    [asyncio.run(main())] follows. *)
Definition program (environ dotenv : gmap string string)
  : list Action * Store * Result unit :=
  match Config.module environ dotenv with
  | Raise e => ([], InMemorySessionService adk, Raise e)
  | Ok cfg => main (Config.MODEL_NAME cfg)
  end.

End Main.

(** ** The framework, as the specification describes it *)

Module Adk.

(** Modelled from the spec: what the Conversation Runner hands to the
    language model for one turn, the persona text and the user message. *)
Record LlmRequest : Type := {
  system_instruction : string;
  new_message : Content
}.

(** Modelled from the spec: one step of a turn's answer, an event and
    the writes to the session state that come with it. *)
Record ReplyItem : Type := {
  item_event : Event;
  state_delta : list (string * Val)
}.

(** Modelled from the spec: a turn's answer, finitely many steps and
    then the end of the stream or an error raised mid-stream. *)
Record Reply : Type := {
  items : list ReplyItem;
  error : option Exn
}.

(** Modelled from the spec: the language model, an opaque collaborator;
    any function from the request and the session to a finite answer. *)
Definition Model : Type := LlmRequest → Session.t → Reply.

(** Modelled from the spec: the Session Store, a mapping from
    (application, user, session) to a session with its state bag; beside
    it the requests the model has received, oldest first, as a recording
    stub would keep them. *)
Record Store : Type := {
  sessions : gmap (string * string * string) Session.t;
  requests : list LlmRequest
}.

(** Modelled from the spec: the store of a new session service. *)
Definition empty : Store := {| sessions := ∅; requests := [] |}.

(** Modelled from the spec: [create(app, user, session, initial_state)]
    of the Session Store; creating an existing session is a conflict. *)
Definition create_session (app user sid : string) (initial : State) (s : Store)
  : Store * Result Session.t :=
  match sessions s !! (app, user, sid) with
  | Some _ => (s, Raise (OtherError "AlreadyExistsError" sid))
  | None =>
      let session := {| Session.id := sid; Session.app_name := app;
                        Session.user_id := user; Session.state := initial |} in
      ({| sessions := <[(app, user, sid) := session]> (sessions s);
          requests := requests s |}, Ok session)
  end.

(** Modelled from the spec: [get(app, user, session)] of the Session
    Store, a session or absent. *)
Definition get_session (app user sid : string) (s : Store)
  : Store * Result (option Session.t) :=
  (s, Ok (sessions s !! (app, user, sid))).

(** Modelled from the spec: the instruction source of an agent is a
    static string or a function of the session state, resolved when a
    turn starts. *)
Definition canonical_instruction (a : LlmAgent) (ctx : ReadonlyContext) : Result string :=
  match instruction a with
  | Static text => Ok text
  | Dynamic provider => provider ctx
  end.

(** Modelled from the spec: the writes of one event, applied to the state
    bag in order. *)
Definition apply_delta (delta : list (string * Val)) (σ : State) : State :=
  foldl (λ acc kv, <[kv.1 := kv.2]> acc) σ delta.

(** Modelled from the spec: the same session with another state bag. *)
Definition with_state (session : Session.t) (σ : State) : Session.t :=
  {| Session.id := Session.id session; Session.app_name := Session.app_name session;
     Session.user_id := Session.user_id session; Session.state := σ |}.

(** Modelled from the spec: the textual result of an event, its text
    parts joined. *)
Definition event_text (ev : Event) : string :=
  foldr (λ p acc, default "" (text p) +:+ acc) ""
        (default [] (content ev ≫= parts)).

(** Modelled from the spec: the output key receives the final textual
    result of the turn, when the agent has an output key and the turn
    produced text. *)
Definition save_output (a : LlmAgent) (last_text : string) (σ : State) : State :=
  match output_key a, last_text with
  | None, _ | _, "" => σ
  | Some k, t => <[k := VStr t]> σ
  end.

(** Modelled from the spec: the session stored back under its triple. *)
Definition put_session (key : string * string * string) (session : Session.t)
  (s : Store) : Store :=
  {| sessions := <[key := session]> (sessions s); requests := requests s |}.

(** Modelled from the spec: the rest of a turn.  Each event's writes reach
    the session state before the event is handed out; when the events end
    the final text of the turn is written under the agent's output key. *)
Fixpoint stream (a : LlmAgent) (key : string * string * string) (s : Store)
  (session : Session.t) (last_text : string) (err : option Exn)
  (its : list ReplyItem) : Stream Store :=
  match its with
  | [] =>
      match err with
      | Some e => Fail e (put_session key session s)
      | None =>
          Stop (put_session key
                  (with_state session (save_output a last_text (Session.state session))) s)
      end
  | it :: rest =>
      let session' := with_state session
                        (apply_delta (state_delta it) (Session.state session)) in
      let t := event_text (item_event it) in
      Yield (item_event it)
            (stream a key s session' (if decide (t = "") then last_text else t) err rest)
  end.

(** Modelled from the spec: [runTurn(agentConfig, sessionHandle,
    userMessage)] of the Conversation Runner.  The instruction is taken
    from the agent and the state the session has when the turn starts; a
    provider that raises ends the turn before the model is asked. *)
Definition run_async (model : Model) (runner : Runner) (user sid : string)
  (msg : Content) (s : Store) : Stream Store :=
  let key := (app_name runner, user, sid) in
  match sessions s !! key with
  | None => Fail (ValueError ("Session not found: " +:+ sid)) s
  | Some session =>
      let ctx := {| state := Session.state session |} in
      match canonical_instruction (agent runner) ctx with
      | Raise e => Fail e s
      | Ok text =>
          let req := {| system_instruction := text; new_message := msg |} in
          let s' := {| sessions := sessions s; requests := requests s ++ [req] |} in
          let reply := model req session in
          stream (agent runner) key s' session "" (error reply) (items reply)
      end
  end.

(** Modelled from the spec: the session service and the runner together,
    for a given language model. *)
Definition collaborators (model : Model) : Collaborators Store :=
  Build_Collaborators Store empty create_session get_session (run_async model).

(** ** Scripted models *)

Definition text_event (t : string) : Event :=
  {| content := Some {| parts := Some [ {| text := Some t |} ] |} |}.

(** Answers every turn with two text events and writes nothing itself. *)
Definition plain_model : Model := λ _ _,
  {| items := [ {| item_event := text_event "Stay on "; state_delta := [] |};
                {| item_event := text_event "topic."; state_delta := [] |} ];
     error := None |}.

(** Answers with one text event and moves the topic to what the user
    asked about. *)
Definition topic_switching_model : Model := λ req _,
  {| items := [ {| item_event := text_event "Noted.";
                   state_delta :=
                     if decide (new_message req = user_message "Hi, can you help me with Python?")
                     then [("current_topic", VStr "Python")] else [] |} ];
     error := None |}.

(** Emits an event without content and events without text, and no
    text at all. *)
Definition silent_model : Model := λ _ _,
  {| items := [ {| item_event := {| content := None |}; state_delta := [] |};
                {| item_event := {| content := Some {| parts := Some [] |} |};
                   state_delta := [] |};
                {| item_event := {| content := Some {| parts := Some [ {| text := None |} ] |} |};
                   state_delta := [] |} ];
     error := None |}.

(** Raises in the middle of every turn. *)
Definition failing_model : Model := λ _ _,
  {| items := [ {| item_event := text_event "Let me"; state_delta := [] |} ];
     error := Some (OtherError "ServerError" "503") |}.

End Adk.

(** * Observations and sample inputs *)

(** ** Sample states *)


Definition full_context : ReadonlyContext :=
  {| state := <["user:role" := VStr "Staff Engineer"]>
                (<["current_topic" := VStr "Rust"]>
                   {["last_mentor_advice" := VInt 3]}) |}.

Definition reordered_context : ReadonlyContext :=
  {| state := <["current_topic" := VStr "Rust"]>
                (<["last_mentor_advice" := VInt 3]>
                   {["user:role" := VStr "Staff Engineer"]}) |}.

Definition other_context : ReadonlyContext :=
  {| state := <["user:role" := VStr "Staff Engineer"]>
                (<["current_topic" := VStr "Rust"]>
                   {["app:theme" := VBool true]}) |}.

(** ** Start-up *)

Definition missing_key : Exn := ValueError "GOOGLE_API_KEY is missing in .env".

(** The reading of the start-up rule that lets every set variable
    through, the empty one too. *)
Definition starts_whenever_key_is_set : Prop :=
  ∀ environ dotenv,
    is_Some (Config.load_dotenv environ dotenv !! "GOOGLE_API_KEY") →
    ∃ cfg, Config.module environ dotenv = Ok cfg.

(** ** Reading a run *)

Definition trace_of {Store} (run : list Action * Store * Result unit) : list Action :=
  run.1.1.

Definition store_of {Store} (run : list Action * Store * Result unit) : Store :=
  run.1.2.

Definition result_of {Store} (run : list Action * Store * Result unit) : Result unit :=
  run.2.

(** The messages handed to the runner, the log records, the text written
    to stdout and the answers of [get_session], each in order. *)
Definition submitted (tr : list Action) : list Content :=
  omap (λ a, match a with CallRunAsync _ _ m => Some m | _ => None end) tr.

Definition logs (tr : list Action) : list (Level * string) :=
  omap (λ a, match a with Log lvl msg => Some (lvl, msg) | _ => None end) tr.

Definition printed (tr : list Action) : list string :=
  omap (λ a, match a with Stdout t => Some t | _ => None end) tr.

Definition returned (tr : list Action) : list (option Session.t) :=
  omap (λ a, match a with ReturnedSession r => Some r | _ => None end) tr.

(** ** Reading a stream *)

Section StreamViews.
Context {Store : Type}.

Fixpoint events (it : Stream Store) : list Event :=
  match it with
  | Stop _ | Fail _ _ => []
  | Yield ev rest => ev :: events rest
  end.

Fixpoint final (it : Stream Store) : Store :=
  match it with
  | Stop s | Fail _ s => s
  | Yield _ rest => final rest
  end.

Fixpoint outcome (it : Stream Store) : Result unit :=
  match it with
  | Stop _ => Ok tt
  | Fail e _ => Raise e
  | Yield _ rest => outcome rest
  end.

Definition exhausted (it : Stream Store) : bool :=
  match outcome it with
  | Ok _ => true
  | Raise _ => false
  end.

End StreamViews.

(** ** The text fragments of an event

    A fragment is a part that carries text, and the text is not empty. *)

Definition part_fragment (p : Part) : option string :=
  match text p with
  | Some t => if decide (t = "") then None else Some t
  | None => None
  end.

Definition text_fragments (ev : Event) : list string :=
  match content ev with
  | None => []
  | Some c =>
      match parts c with
      | None => []
      | Some ps => omap part_fragment ps
      end
  end.

Definition mentor_line (t : string) : Action := Stdout ("MENTOR: " +:+ t).

(** What consuming a stream leaves in the trace: every event as it is
    received, followed at once by its fragments, and the end of the stream
    when it is reached. *)
Definition stream_trace {Store} (it : Stream Store) : list Action :=
  flat_map (λ ev, Received ev :: map mentor_line (text_fragments ev)) (events it)
  ++ (if exhausted it then [StreamEnd] else []).

Definition turn_trace {Store} (prompt : string) (it : Stream Store) : list Action :=
  [Stdout ((newline +:+ "USER: " +:+ prompt) +:+ newline);
   CallRunAsync user_id session_id (user_message prompt)]
  ++ stream_trace it
  ++ (if exhausted it then [Stdout ("" +:+ newline)] else []).

(** ** Fixed parts of the trace of [main] *)

Definition greeting : list Action :=
  [Stdout (("--- INITIALIZING SESSION: " +:+ repr_dict initial_items +:+ " ---") +:+ newline);
   CallCreateSession app_name_ user_id session_id initial_state].

Definition created (session : Session.t) : Action :=
  Log INFO ("Session created successfully: " +:+ Session.id session
            +:+ " for user " +:+ user_id).

(** ** The driver's phases

    Uninitialized, SessionCreated, then TurnInFlight and TurnComplete in
    alternation, then Verified.  A call to the runner is accepted between
    turns only, an event and the end of a stream during a turn only; text
    and log records are accepted anywhere. *)

Inductive Phase : Type :=
| Uninitialized
| SessionCreated
| TurnInFlight
| TurnComplete
| Verified.

#[global] Instance Phase_eq_dec : EqDecision Phase.
Proof. solve_decision. Defined.

Definition step (ph : Phase) (a : Action) : option Phase :=
  match a, ph with
  | Stdout _, _ | Log _ _, _ => Some ph
  | CallCreateSession _ _ _ _, Uninitialized => Some SessionCreated
  | CallRunAsync _ _ _, SessionCreated | CallRunAsync _ _ _, TurnComplete => Some TurnInFlight
  | Received _, TurnInFlight => Some TurnInFlight
  | StreamEnd, TurnInFlight => Some TurnComplete
  | ReturnedSession _, SessionCreated | ReturnedSession _, TurnComplete => Some Verified
  | _, _ => None
  end.

Fixpoint phases (ph : Phase) (tr : list Action) : option Phase :=
  match tr with
  | [] => Some ph
  | a :: tr' =>
      match step ph a with
      | Some ph' => phases ph' tr'
      | None => None
      end
  end.

(** ** Other collaborators *)

Module Stub.

Definition new_session (app user sid : string) (initial : State) : Session.t :=
  {| Session.id := sid; Session.app_name := app; Session.user_id := user;
     Session.state := initial |}.

(** A session service that hands out sessions and keeps none. *)
Definition forgetful : Collaborators unit :=
  Build_Collaborators unit tt
    (λ app user sid initial s, (s, Ok (new_session app user sid initial)))
    (λ _ _ _ s, (s, Ok None))
    (λ _ _ _ _ s, Yield (Adk.text_event "Hello.") (Stop s)).

(** A session service that cannot create a session. *)
Definition refusing : Collaborators unit :=
  Build_Collaborators unit tt
    (λ _ _ _ _ s, (s, Raise (OtherError "ConnectionError" "store unreachable")))
    (λ _ _ _ s, (s, Ok None))
    (λ _ _ _ _ s, Stop s).

End Stub.

(** ** The session at the end of the silent run *)


(** ** The calls of a run, one after the other

    The session is created on the store of the new service, the first turn
    runs on the store that leaves, the second turn on the store the first
    turn leaves, and the session is fetched again from the store the second
    turn leaves. *)

Section Path.
Context {Store : Type} (adk : Collaborators Store) (MODEL_NAME : string).

Definition creation : Store * Result Session.t :=
  create_session adk app_name_ user_id session_id initial_state (InMemorySessionService adk).

Definition first_stream : Stream Store :=
  run_async adk {| agent := root_agent MODEL_NAME; app_name := app_name_ |}
    user_id session_id (user_message "Hi, can you help me with Python?") creation.1.

Definition second_stream : Stream Store :=
  run_async adk {| agent := root_agent MODEL_NAME; app_name := app_name_ |}
    user_id session_id (user_message "Okay, tell me about Stack and Heap.")
    (final first_stream).

Definition refetch : Store * Result (option Session.t) :=
  get_session adk app_name_ user_id session_id (final second_stream).

End Path.

(** What one completed turn writes to stdout: the user line, one line
    fragment per text fragment of the stream, and the closing newline. *)
Definition turn_output {Store} (prompt : string) (it : Stream Store) : list string :=
  ((newline +:+ "USER: " +:+ prompt) +:+ newline)
  :: map (λ t, "MENTOR: " +:+ t) (flat_map text_fragments (events it))
  ++ [newline].

(** The values Python takes for false among those of the model. *)
Definition falsy (v : Val) : Prop :=
  v = VNone ∨ v = VBool false ∨ v = VInt 0 ∨ v = VStr "".

(** The fixed text around the two fields of the instruction. *)
Definition persona_head : string :=
  "You are a strict Senior Tech Lead. You are currently mentoring a user with the rank of '".

Definition persona_tail : string := ". Keep answers concise and technical.".

Definition typed_context : ReadonlyContext :=
  {| state := <["user:role" := VInt 5]> {["current_topic" := VNone]} |}.

Definition untyped_context : ReadonlyContext :=
  {| state := <["user:role" := VStr "5"]> {["current_topic" := VStr "None"]} |}.

Definition zero_advice_session : Session.t :=
  Stub.new_session app_name_ user_id session_id {["last_mentor_advice" := VInt 0]}.

Definition long_advice : string :=
  "Prefer the stack for short-lived values; the heap costs an allocation.".

Definition short_advice_session : Session.t :=
  Stub.new_session app_name_ user_id session_id {["last_mentor_advice" := VStr "topic."]}.

Definition long_advice_session : Session.t :=
  Stub.new_session app_name_ user_id session_id {["last_mentor_advice" := VStr long_advice]}.

(** A session service that answers the final lookup with a given session,
    and a runner whose streams are empty. *)
Definition answering (session : Session.t) : Collaborators unit :=
  Build_Collaborators unit tt
    (λ app user sid initial s, (s, Ok (Stub.new_session app user sid initial)))
    (λ _ _ _ s, (s, Ok (Some session)))
    (λ _ _ _ _ s, Stop s).

(** A session service whose final lookup raises. *)
Definition unreachable_on_lookup : Collaborators unit :=
  Build_Collaborators unit tt
    (λ app user sid initial s, (s, Ok (Stub.new_session app user sid initial)))
    (λ _ _ _ s, (s, Raise (OtherError "TimeoutError" "lookup")))
    (λ _ _ _ _ s, Yield (Adk.text_event "Hello.") (Stop s)).

(** ** The provider, statement by statement

    The body of [dynamic_persona_provider] once more, in the driver's monad
    over the session state the context gives a view of: each [.get] is a
    step that reads the live state, each field of the f-string a step that
    may raise.  In this form a write to the state or a line of output would
    show in the store or in the trace. *)

Definition state_get (k : string) (dflt : Val) : M (Store:=State) Val :=
  λ σ, ([], σ, Ok (get σ k dflt)).

Definition persona_steps : M (Store:=State) string :=
  use_role ← state_get "user:role" (VStr "Intern");
  current_topic ← state_get "current_topic" (VStr "General Chat");
  role ← lift (format use_role);
  topic ← lift (format current_topic);
  topic_again ← lift (format current_topic);
  mret ("You are a strict Senior Tech Lead. "
        +:+ "You are currently mentoring a user with the rank of '" +:+ role +:+ "'. "
        +:+ "The current discussion topic is locked to: '" +:+ topic +:+ "'. "
        +:+ "If the user asks about anything else, politely refuse and steer back to "
            +:+ topic_again +:+ ". "
        +:+ "Keep answers concise and technical.").

(** Two calls of the provider, one after the other on the same live
    state. *)
Definition persona_twice : M (Store:=State) (string * string) :=
  first ← persona_steps;
  second ← persona_steps;
  mret (first, second).

(** ** The turns of a trace

    Each call to the runner opens a turn; the turn collects the events
    received until the next call, and whether the end of its stream was
    reached. *)

Definition add_event (ev : Event) (t : Content * list Event * bool)
  : Content * list Event * bool :=
  (t.1.1, t.1.2 ++ [ev], t.2).

Definition set_ended (t : Content * list Event * bool) : Content * list Event * bool :=
  (t.1.1, t.1.2, true).

Fixpoint turns_from (cur : option (Content * list Event * bool)) (tr : list Action)
  : list (Content * list Event * bool) :=
  match tr with
  | [] => option_list cur
  | CallRunAsync _ _ m :: tr' => option_list cur ++ turns_from (Some (m, [], false)) tr'
  | Received ev :: tr' => turns_from (add_event ev <$> cur) tr'
  | StreamEnd :: tr' => turns_from (set_ended <$> cur) tr'
  | _ :: tr' => turns_from cur tr'
  end.

Definition turns (tr : list Action) : list (Content * list Event * bool) :=
  turns_from None tr.

(** ** Values that cannot be printed, and collaborators that fail *)




(** A runner whose stream yields one event and then raises. *)
Definition interrupted : Collaborators unit :=
  Build_Collaborators unit tt
    (λ app user sid initial s, (s, Ok (Stub.new_session app user sid initial)))
    (λ _ _ _ s, (s, Ok None))
    (λ _ _ _ _ s,
       Yield {| content := Some {| parts := Some [ {| text := Some "Let me" |} ] |} |}
             (Fail (OtherError "ServerError" "503") s)).

(** ** The rules, read for every input *)


(** Every run submits the two prompts. *)
Definition every_run_submits_both_prompts : Prop :=
  ∀ (adk : Collaborators unit) (MODEL_NAME : string),
    submitted (trace_of (main adk MODEL_NAME)) =
    [ {| parts := Some [ {| text := Some "Hi, can you help me with Python?" |} ] |};
      {| parts := Some [ {| text := Some "Okay, tell me about Stack and Heap." |} ] |} ].


(** * Properties *)

(** ** Strings *)

Lemma string_app_assoc (a b c : string) : (a +:+ b) +:+ c = a +:+ b +:+ c.
Proof.
  induction a as [|ch a IH]; [reflexivity|].
  change (String ch ((a +:+ b) +:+ c) = String ch (a +:+ b +:+ c)).
  by rewrite IH.
Qed.

Lemma string_app_nil_r (a : string) : a +:+ "" = a.
Proof.
  induction a as [|ch a IH]; [reflexivity|].
  change (String ch (a +:+ "") = String ch a). by rewrite IH.
Qed.

Lemma contains_app_l (needle pre hay : string) :
  contains needle hay → contains needle (pre +:+ hay).
Proof.
  intros (p & q & ->). exists (pre +:+ p), q. by rewrite string_app_assoc.
Qed.

Lemma contains_prefix (needle post : string) : contains needle (needle +:+ post).
Proof. by exists "", post. Qed.

(** ** Printing a value *)



(** ** The persona formatter *)

Section Formatter.
Implicit Types (ctx : ReadonlyContext) (σ : State).

(** The formatter reads the state through the two lookups only. *)
Lemma persona_of_lookups ctx :
  dynamic_persona_provider ctx =
  (role ← str (default (VStr "Intern") (state ctx !! "user:role"));
   topic ← str (default (VStr "General Chat") (state ctx !! "current_topic"));
   topic_again ← str (default (VStr "General Chat") (state ctx !! "current_topic"));
   Ok ("You are a strict Senior Tech Lead. "
       +:+ "You are currently mentoring a user with the rank of '" +:+ role +:+ "'. "
       +:+ "The current discussion topic is locked to: '" +:+ topic +:+ "'. "
       +:+ "If the user asks about anything else, politely refuse and steer back to "
       +:+ topic_again +:+ ". "
       +:+ "Keep answers concise and technical.")).
Proof. reflexivity. Qed.

Lemma persona_returns ctx (role topic : string) :
  str (default (VStr "Intern") (state ctx !! "user:role")) = Ok role →
  str (default (VStr "General Chat") (state ctx !! "current_topic")) = Ok topic →
  dynamic_persona_provider ctx =
  Ok ("You are a strict Senior Tech Lead. "
      +:+ "You are currently mentoring a user with the rank of '" +:+ role +:+ "'. "
      +:+ "The current discussion topic is locked to: '" +:+ topic +:+ "'. "
      +:+ "If the user asks about anything else, politely refuse and steer back to "
      +:+ topic +:+ ". "
      +:+ "Keep answers concise and technical.").
Proof. intros Hrole Htopic. by rewrite persona_of_lookups, Hrole, Htopic. Qed.




(** C3.  With both keys holding strings, the formatter returns, and the
    instruction contains the stored role and the stored topic character
    for character: the role between the quotes after "rank of", the topic
    between the quotes after "locked to:" and once more after "steer back
    to". *)
Theorem persona_embeds_values ctx (role topic : string) :
  state ctx !! "user:role" = Some (VStr role) →
  state ctx !! "current_topic" = Some (VStr topic) →
  ∃ text,
    dynamic_persona_provider ctx = Ok text
    ∧ contains role text
    ∧ contains topic text
    ∧ contains ("with the rank of '" +:+ role +:+ "'. ") text
    ∧ contains ("locked to: '" +:+ topic +:+ "'. ") text
    ∧ contains ("steer back to " +:+ topic +:+ ". ") text.
Proof.
  intros Hrole Htopic. eexists. split.
  { apply (persona_returns ctx role topic); [by rewrite Hrole|by rewrite Htopic]. }
  repeat split.
  - do 2 apply contains_app_l. apply contains_prefix.
  - do 5 apply contains_app_l. apply contains_prefix.
  - apply contains_app_l.
    exists "You are currently mentoring a user ". eexists.
    rewrite !string_app_assoc. reflexivity.
  - do 4 apply contains_app_l.
    exists "The current discussion topic is ". eexists.
    rewrite !string_app_assoc. reflexivity.
  - do 7 apply contains_app_l.
    exists "If the user asks about anything else, politely refuse and ". eexists.
    rewrite !string_app_assoc. reflexivity.
Qed.

(** C10.  Two states that agree on "user:role" and on "current_topic"
    (value for value, or both without the key) get the same instruction,
    whatever else they hold. *)
Theorem persona_reads_two_keys_only ctx1 ctx2 :
  state ctx1 !! "user:role" = state ctx2 !! "user:role" →
  state ctx1 !! "current_topic" = state ctx2 !! "current_topic" →
  dynamic_persona_provider ctx1 = dynamic_persona_provider ctx2.
Proof. intros Hrole Htopic. rewrite !persona_of_lookups. by rewrite Hrole, Htopic. Qed.

(** The body run as steps on a live state gives what the formatter gives on
    that state, writes nothing to the trace and leaves the state as it
    found it. *)
Lemma persona_steps_run σ :
  persona_steps σ = ([], σ, dynamic_persona_provider {| state := σ |}).
Proof.
  unfold persona_steps, dynamic_persona_provider, format, state_get, lift.
  unfold mbind, M_bind, bind, mret, M_ret, ret. cbn [state].
  destruct (str (get σ "user:role" (VStr "Intern"))) as [role|e]; [|reflexivity].
  destruct (str (get σ "current_topic" (VStr "General Chat"))) as [topic|e];
    reflexivity.
Qed.

(** C4.  On two snapshots that hold the same value under every key: a
    call of the provider on the first, run step by step on the live state,
    writes nothing to the trace, leaves the state as it found it and gives
    what the formatter gives on the second; two calls in a row on the same
    live state give the same string twice (or raise), again without a
    trace and with the state untouched. *)
Theorem persona_deterministic ctx1 ctx2 :
  (∀ k, state ctx1 !! k = state ctx2 !! k) →
  persona_steps (state ctx1) = ([], state ctx1, dynamic_persona_provider ctx2)
  ∧ persona_twice (state ctx1) =
    ([], state ctx1,
     match dynamic_persona_provider ctx2 with
     | Ok text => Ok (text, text)
     | Raise e => Raise e
     end)
  ∧ dynamic_persona_provider ctx1 = dynamic_persona_provider ctx2.
Proof.
  intros Heq. destruct ctx1 as [σ1], ctx2 as [σ2]; cbn [state] in *.
  rewrite <- (map_eq σ1 σ2 Heq). split; [apply persona_steps_run|]. split; [|done].
  unfold persona_twice, mbind, M_bind, bind. rewrite persona_steps_run.
  destruct (dynamic_persona_provider {| state := σ1 |}) as [text|e] eqn:Hrun;
    [|reflexivity].
  by rewrite persona_steps_run, Hrun.
Qed.

End Formatter.



Lemma persona_embeds_values_witness :
  ∃ text,
    dynamic_persona_provider full_context = Ok text
    ∧ contains "Staff Engineer" text
    ∧ contains "Rust" text
    ∧ contains ("with the rank of '" +:+ "Staff Engineer" +:+ "'. ") text
    ∧ contains ("locked to: '" +:+ "Rust" +:+ "'. ") text
    ∧ contains ("steer back to " +:+ "Rust" +:+ ". ") text.
Proof.
  apply (persona_embeds_values full_context "Staff Engineer" "Rust"); reflexivity.
Defined.

Lemma persona_reads_two_keys_only_witness :
  dynamic_persona_provider full_context = dynamic_persona_provider other_context.
Proof.
  apply (persona_reads_two_keys_only full_context other_context); reflexivity.
Defined.

Lemma persona_deterministic_witness :
  persona_steps (state full_context) =
    ([], state full_context, dynamic_persona_provider reordered_context)
  ∧ persona_twice (state full_context) =
    ([], state full_context,
     match dynamic_persona_provider reordered_context with
     | Ok text => Ok (text, text)
     | Raise e => Raise e
     end)
  ∧ dynamic_persona_provider full_context = dynamic_persona_provider reordered_context.
Proof.
  apply (persona_deterministic full_context reordered_context).
  intros k. reflexivity.
Defined.

(** ** Start-up *)

Section Startup.
Context {Store : Type} (adk : Collaborators Store).
Implicit Types environ dotenv : gmap string string.

(** C5, as the code has it.  When GOOGLE_API_KEY is not set, or is set to
    the empty string, importing the configuration raises
    ValueError("GOOGLE_API_KEY is missing in .env") and the script ends
    there: nothing is printed or logged and no collaborator is called.
    When it is set to a non-empty string the import succeeds, with that
    key and the model name "gemini-2.5-flash", and the script goes on to
    run [main]. *)
Theorem startup_requires_nonempty_key environ dotenv :
  let key := Config.load_dotenv environ dotenv !! "GOOGLE_API_KEY" in
  ((key = None ∨ key = Some "") →
     Config.module environ dotenv = Raise missing_key
     ∧ program adk environ dotenv = ([], InMemorySessionService adk, Raise missing_key))
  ∧ (∀ v, key = Some v → v ≠ "" →
     Config.module environ dotenv =
       Ok {| Config.GOOGLE_API_KEY := VStr v; Config.MODEL_NAME := "gemini-2.5-flash" |}
     ∧ program adk environ dotenv = main adk "gemini-2.5-flash").
Proof.
  cbn zeta. split.
  - intros Hkey.
    assert (Config.module environ dotenv = Raise missing_key) as Hmod.
    { unfold Config.module, Config.getenv. by destruct Hkey as [-> | ->]. }
    split; [done|]. unfold program. by rewrite Hmod.
  - intros v Hkey Hv.
    assert (Config.module environ dotenv =
            Ok {| Config.GOOGLE_API_KEY := VStr v;
                  Config.MODEL_NAME := "gemini-2.5-flash" |}) as Hmod.
    { unfold Config.module, Config.getenv. rewrite Hkey.
      destruct v as [|c v]; [done|]. reflexivity. }
    split; [done|]. unfold program. by rewrite Hmod.
Qed.

End Startup.

(** C5, the input on which the unqualified rule fails: GOOGLE_API_KEY is
    set, to the empty string, and the import raises all the same. *)
Lemma empty_key_is_set_but_rejected : ¬ starts_whenever_key_is_set.
Proof.
  intros Hclaim.
  destruct (Hclaim {["GOOGLE_API_KEY" := ""]} ∅) as [cfg Hcfg].
  - by eexists.
  - discriminate Hcfg.
Qed.


(** ** The turn loop *)

Section Driver.
Context {Store : Type} (adk : Collaborators Store).
Implicit Types (s : Store) (it : Stream Store) (ev : Event).

Lemma print_part_run (p : Part) s :
  print_part p s = (map mentor_line (option_list (part_fragment p)), s, Ok tt).
Proof.
  unfold print_part, part_fragment, print, mentor_line.
  destruct (text p) as [[|c t]|]; cbn [text_truthy default]; try reflexivity.
  by rewrite string_app_nil_r.
Qed.

Lemma for_each_print_part (ps : list Part) s :
  for_each ps print_part s = (map mentor_line (omap part_fragment ps), s, Ok tt).
Proof.
  induction ps as [|p ps IH]; [reflexivity|].
  cbn [for_each]. unfold mbind, M_bind, bind. rewrite print_part_run, IH.
  cbn [omap list_omap]. destruct (part_fragment p); reflexivity.
Qed.

Lemma on_event_run ev s :
  on_event ev s = (map mentor_line (text_fragments ev), s, Ok tt).
Proof.
  unfold on_event, has_parts, text_fragments.
  destruct (content ev) as [[[[|p ps]|]]|]; try reflexivity.
  apply for_each_print_part.
Qed.

(** A fragment of an event is the text of one of its parts, when that
    text is there and not empty. *)
Lemma elem_of_text_fragments (t : string) ev :
  t ∈ text_fragments ev ↔
  t ≠ "" ∧ ∃ c ps p, content ev = Some c ∧ parts c = Some ps ∧ p ∈ ps ∧ text p = Some t.
Proof.
  unfold text_fragments. split.
  - destruct (content ev) as [c|] eqn:Hc; [|by intros ?%elem_of_nil].
    destruct (parts c) as [ps|] eqn:Hps; [|by intros ?%elem_of_nil].
    intros (p & Hp & Hfrag)%list_elem_of_omap. unfold part_fragment in Hfrag.
    destruct (text p) as [t'|] eqn:Htext; [|done].
    destruct (decide (t' = "")); [done|]. injection Hfrag as ->.
    split; [done|]. by exists c, ps, p.
  - intros (Ht & c & ps & p & -> & -> & Hp & Htext).
    apply list_elem_of_omap. exists p. split; [done|].
    unfold part_fragment. rewrite Htext. by destruct (decide (t = "")).
Qed.

Lemma async_for_run it s :
  async_for it on_event s = (stream_trace it, final it, outcome it).
Proof.
  unfold stream_trace, exhausted.
  induction it as [s'|e s'|ev rest IH]; try reflexivity.
  cbn [async_for events final outcome flat_map].
  unfold mbind, M_bind, bind, emit. rewrite on_event_run, IH.
  destruct (outcome rest); cbn; by rewrite <- ?app_assoc.
Qed.

Lemma turn_run (runner : Runner) (prompt : string) s :
  turn adk runner prompt s =
  let it := run_async adk runner user_id session_id (user_message prompt) s in
  (turn_trace prompt it, final it, outcome it).
Proof.
  cbn zeta. unfold turn, turn_trace, exhausted, mbind, M_bind, bind, print, emit.
  rewrite async_for_run.
  destruct (outcome _) as [[]|e]; cbn; by rewrite ?app_nil_r.
Qed.

(** *** Views of a turn's trace *)

Lemma omap_stream_trace {B} (f : Action → option B) it :
  (∀ ev, f (Received ev) = None) → (∀ t, f (Stdout t) = None) → f StreamEnd = None →
  omap f (stream_trace it) = [].
Proof.
  intros Hrecv Hout Hend. unfold stream_trace. rewrite omap_app.
  assert (omap f (if exhausted it then [StreamEnd] else []) = []) as ->.
  { destruct (exhausted it); cbn; by rewrite ?Hend. }
  rewrite app_nil_r. induction (events it) as [|ev evs IH]; [reflexivity|].
  cbn [flat_map]. rewrite omap_app, IH, app_nil_r. cbn. rewrite Hrecv.
  induction (text_fragments ev) as [|t ts IHt]; [reflexivity|].
  cbn. unfold mentor_line at 1. by rewrite Hout.
Qed.

Lemma submitted_turn_trace (prompt : string) it :
  submitted (turn_trace prompt it) = [user_message prompt].
Proof.
  unfold submitted, turn_trace. rewrite !omap_app, omap_stream_trace by done.
  by destruct (exhausted it).
Qed.

Lemma logs_turn_trace (prompt : string) it : logs (turn_trace prompt it) = [].
Proof.
  unfold logs, turn_trace. rewrite !omap_app, omap_stream_trace by done.
  by destruct (exhausted it).
Qed.

Lemma returned_turn_trace (prompt : string) it : returned (turn_trace prompt it) = [].
Proof.
  unfold returned, turn_trace. rewrite !omap_app, omap_stream_trace by done.
  by destruct (exhausted it).
Qed.

Lemma phases_app (ph : Phase) (tr1 tr2 : list Action) :
  phases ph (tr1 ++ tr2) = phases ph tr1 ≫= λ ph', phases ph' tr2.
Proof.
  revert ph. induction tr1 as [|a tr1 IH]; intros ph; [reflexivity|].
  cbn. destruct (step ph a); [apply IH|reflexivity].
Qed.

Lemma phases_stream_trace it :
  phases TurnInFlight (stream_trace it) =
  Some (if exhausted it then TurnComplete else TurnInFlight).
Proof.
  unfold stream_trace. rewrite phases_app.
  assert (phases TurnInFlight
            (flat_map (λ ev, Received ev :: map mentor_line (text_fragments ev)) (events it))
          = Some TurnInFlight) as ->.
  { induction (events it) as [|ev evs IH]; [reflexivity|].
    cbn [flat_map]. rewrite phases_app.
    assert (phases TurnInFlight (Received ev :: map mentor_line (text_fragments ev))
            = Some TurnInFlight) as ->; [|exact IH].
    cbn. by induction (text_fragments ev). }
  by destruct (exhausted it).
Qed.

Lemma phases_turn_trace (ph : Phase) (prompt : string) it :
  ph = SessionCreated ∨ ph = TurnComplete →
  phases ph (turn_trace prompt it) =
  Some (if exhausted it then TurnComplete else TurnInFlight).
Proof.
  intros Hph. unfold turn_trace.
  assert (∀ tr, phases ph ([Stdout ((newline +:+ "USER: " +:+ prompt) +:+ newline);
                            CallRunAsync user_id session_id (user_message prompt)] ++ tr)
                = phases TurnInFlight tr) as ->.
  { intros tr. by destruct Hph as [-> | ->]. }
  rewrite phases_app, phases_stream_trace. by destruct (exhausted it).
Qed.

(** *** Views of the run up to the end of the first turn *)

Lemma submitted_app (tr1 tr2 : list Action) :
  submitted (tr1 ++ tr2) = submitted tr1 ++ submitted tr2.
Proof. apply omap_app. Qed.

Lemma logs_app (tr1 tr2 : list Action) : logs (tr1 ++ tr2) = logs tr1 ++ logs tr2.
Proof. apply omap_app. Qed.

Lemma returned_app (tr1 tr2 : list Action) :
  returned (tr1 ++ tr2) = returned tr1 ++ returned tr2.
Proof. apply omap_app. Qed.

Lemma submitted_cons_other (a : Action) (tr : list Action) :
  (∀ u i m, a ≠ CallRunAsync u i m) → submitted (a :: tr) = submitted tr.
Proof. intros Ha. destruct a; try reflexivity. by destruct (Ha user sid new_message). Qed.

Lemma phases_first_turn (session : Session.t) it :
  phases Uninitialized
    (greeting ++ created session :: turn_trace "Hi, can you help me with Python?" it)
  = Some (if exhausted it then TurnComplete else TurnInFlight).
Proof.
  change (phases SessionCreated (turn_trace "Hi, can you help me with Python?" it) =
          Some (if exhausted it then TurnComplete else TurnInFlight)).
  apply phases_turn_trace. by left.
Qed.

Lemma submitted_first_turn (session : Session.t) it :
  submitted (greeting ++ created session :: turn_trace "Hi, can you help me with Python?" it)
  = [user_message "Hi, can you help me with Python?"].
Proof.
  change (submitted (turn_trace "Hi, can you help me with Python?" it) =
          [user_message "Hi, can you help me with Python?"]).
  apply submitted_turn_trace.
Qed.

Lemma logs_first_turn (session : Session.t) it :
  logs (greeting ++ created session :: turn_trace "Hi, can you help me with Python?" it)
  = [(INFO, "Session created successfully: " +:+ Session.id session
            +:+ " for user " +:+ user_id)].
Proof.
  change ((INFO, "Session created successfully: " +:+ Session.id session
                  +:+ " for user " +:+ user_id)
          :: logs (turn_trace "Hi, can you help me with Python?" it) = 
          [(INFO, "Session created successfully: " +:+ Session.id session
                  +:+ " for user " +:+ user_id)]).
  by rewrite logs_turn_trace.
Qed.

Lemma returned_first_turn (session : Session.t) it :
  returned (greeting ++ created session :: turn_trace "Hi, can you help me with Python?" it)
  = [].
Proof.
  change (returned (turn_trace "Hi, can you help me with Python?" it) = []).
  apply returned_turn_trace.
Qed.

(** *** The whole run, case by case *)

Lemma verify_run (updated : option Session.t) s :
  verify updated s =
  match updated with
  | None => ([], s, Ok tt)
  | Some session =>
      let advice := get_or_none (Session.state session) "last_mentor_advice" in
      if truthy advice
      then match str advice with
           | Ok text =>
               ([Log INFO ("State 'last_mentor_advice': " +:+ slice_to 50 text +:+ "...")],
                s, Ok tt)
           | Raise e => ([], s, Raise e)
           end
      else ([Log WARNING "State 'last_mentor_advice' is empty!"], s, Ok tt)
  end.
Proof.
  destruct updated as [session|]; [|reflexivity]. cbn [verify]. cbn zeta.
  destruct (truthy _); [|reflexivity].
  unfold mbind, M_bind, bind, lift. by destruct (str _).
Qed.

Lemma verify_keeps_store (updated : option Session.t) s : (verify updated s).1.2 = s.
Proof.
  rewrite verify_run. destruct updated as [session|]; [|reflexivity]. cbn zeta.
  destruct (truthy _); [|reflexivity]. by destruct (str _).
Qed.

Lemma main_run (MODEL_NAME : string) :
  let runner := {| agent := root_agent MODEL_NAME; app_name := app_name_ |} in
  let '(s0, r0) := create_session adk app_name_ user_id session_id initial_state
                     (InMemorySessionService adk) in
  match r0 with
  | Raise e => main adk MODEL_NAME = (greeting, s0, Raise e)
  | Ok session =>
      let it1 := run_async adk runner user_id session_id
                   (user_message "Hi, can you help me with Python?") s0 in
      let tr1 := greeting ++ created session
                   :: turn_trace "Hi, can you help me with Python?" it1 in
      match outcome it1 with
      | Raise e => main adk MODEL_NAME = (tr1, final it1, Raise e)
      | Ok _ =>
          let it2 := run_async adk runner user_id session_id
                       (user_message "Okay, tell me about Stack and Heap.") (final it1) in
          let tr2 := tr1 ++ turn_trace "Okay, tell me about Stack and Heap." it2 in
          match outcome it2 with
          | Raise e => main adk MODEL_NAME = (tr2, final it2, Raise e)
          | Ok _ =>
              let '(s3, r3) := get_session adk app_name_ user_id session_id (final it2) in
              match r3 with
              | Raise e => main adk MODEL_NAME = (tr2, s3, Raise e)
              | Ok updated =>
                  main adk MODEL_NAME =
                  (tr2 ++ ReturnedSession updated :: (verify updated s3).1.1, s3,
                   (verify updated s3).2)
              end
          end
      end
  end.
Proof.
  cbn zeta. unfold main, main_body, prompts. cbn [for_each].
  unfold mbind, M_bind, bind, print, log, emit, call, mret, M_ret, ret.
  destruct (create_session adk _ _ _ _ _) as [s0 [session|e]]; [|reflexivity].
  rewrite turn_run. cbn zeta.
  destruct (outcome (run_async adk _ _ _ (user_message "Hi, can you help me with Python?") s0))
    as [[]|e] eqn:H1; [|reflexivity].
  rewrite turn_run. cbn zeta.
  destruct (outcome (run_async adk _ _ _ (user_message "Okay, tell me about Stack and Heap.") _))
    as [[]|e] eqn:H2.
  2: { unfold greeting, created. by rewrite ?app_nil_r, <- ?app_assoc. }
  destruct (get_session adk _ _ _ _) as [s3 [updated|e]].
  2: { unfold greeting, created. by rewrite ?app_nil_r, <- ?app_assoc. }
  pose proof (verify_keeps_store updated s3) as Hstore.
  destruct (verify updated s3) as [[tr s4] r]. cbn [fst snd] in Hstore. subst s4.
  unfold greeting, created. cbn [fst snd].
  destruct r; by rewrite ?app_nil_r, <- ?app_assoc.
Qed.

End Driver.

(** Case analysis on a run of [main]: session creation fails, the first or
    the second turn raises, the final lookup raises, or the run reaches the
    verification step. *)
Ltac main_cases adk MODEL_NAME :=
  let Hrun := fresh "Hrun" in
  pose proof (main_run adk MODEL_NAME) as Hrun; cbn zeta in Hrun; revert Hrun;
  destruct (create_session adk _ _ _ _ _) as [?s0 [?session|?e]];
  [ set (it1 := run_async adk _ _ _ (user_message "Hi, can you help me with Python?") _);
    destruct (outcome it1) as [[]|?e] eqn:?Hturn1;
    [ set (it2 := run_async adk _ _ _
                    (user_message "Okay, tell me about Stack and Heap.") _);
      destruct (outcome it2) as [[]|?e] eqn:?Hturn2;
      [ destruct (get_session adk _ _ _ _) as [?s3 [?updated|?e]] | ] | ] | ];
  intros Hrun; rewrite Hrun; clear Hrun;
  unfold trace_of, result_of, store_of; cbn [fst snd].

Lemma exhausted_of_outcome {Store} (it : Stream Store) :
  exhausted it = match outcome it with Ok _ => true | Raise _ => false end.
Proof. reflexivity. Qed.

(** ** The run along its calls *)

Section RunPath.
Context {Store : Type} (adk : Collaborators Store) (MODEL_NAME : string).

Lemma main_path :
  main adk MODEL_NAME =
  match (creation adk).2 with
  | Raise e => (greeting, (creation adk).1, Raise e)
  | Ok session =>
      let tr1 := greeting ++ created session
                   :: turn_trace "Hi, can you help me with Python?"
                        (first_stream adk MODEL_NAME) in
      match outcome (first_stream adk MODEL_NAME) with
      | Raise e => (tr1, final (first_stream adk MODEL_NAME), Raise e)
      | Ok _ =>
          let tr2 := tr1 ++ turn_trace "Okay, tell me about Stack and Heap."
                              (second_stream adk MODEL_NAME) in
          match outcome (second_stream adk MODEL_NAME) with
          | Raise e => (tr2, final (second_stream adk MODEL_NAME), Raise e)
          | Ok _ =>
              match (refetch adk MODEL_NAME).2 with
              | Raise e => (tr2, (refetch adk MODEL_NAME).1, Raise e)
              | Ok updated =>
                  (tr2 ++ ReturnedSession updated
                          :: trace_of (verify updated (refetch adk MODEL_NAME).1),
                   (refetch adk MODEL_NAME).1,
                   result_of (verify updated (refetch adk MODEL_NAME).1))
              end
          end
      end
  end.
Proof.
  pose proof (main_run adk MODEL_NAME) as Hrun. cbn zeta in Hrun. revert Hrun.
  unfold refetch, second_stream, first_stream, creation, trace_of, result_of.
  destruct (create_session adk _ _ _ _ _) as [s0 [session|e]]; cbn [fst snd]; [|done].
  destruct (outcome _) as [[]|e]; [|done].
  destruct (outcome _) as [[]|e]; [|done].
  destruct (get_session adk _ _ _ _) as [s3 [updated|e]]; cbn [fst snd]; done.
Qed.

End RunPath.

(** Case analysis along [main_path]. *)
Ltac path_cases adk MODEL_NAME :=
  rewrite (main_path adk MODEL_NAME);
  destruct ((creation adk).2) as [?session|?e] eqn:?Hcreate;
  [ destruct (outcome (first_stream adk MODEL_NAME)) as [[]|?e] eqn:?Hturn1;
    [ destruct (outcome (second_stream adk MODEL_NAME)) as [[]|?e] eqn:?Hturn2;
      [ destruct ((refetch adk MODEL_NAME).2) as [?updated|?e] eqn:?Hget | ] | ] | ];
  cbn zeta; unfold trace_of, result_of, store_of; cbn [fst snd].

(** ** Slices and truth values *)



Lemma slice_to_all (n : nat) (s : string) :
  (String.length s ≤ n)%nat → slice_to n s = s.
Proof.
  unfold slice_to. revert s. induction n as [|n IH]; intros s Hlen.
  - destruct s; [done|]. cbn in Hlen. lia.
  - destruct s as [|c s]; [done|]. cbn [String.substring]. cbn in Hlen.
    rewrite IH; [done|lia].
Qed.

Lemma truthy_false_iff (v : Val) : truthy v = false ↔ falsy v.
Proof.
  unfold falsy. split.
  - destruct v as [|[]|z|[|c s]]; cbn; try done; auto.
    intros Hz. do 2 right. left. f_equal. apply negb_false_iff in Hz. lia.
  - by intros [-> | [-> | [-> | ->]]].
Qed.


(** ** Views of the verification step and of the turns *)

Section Views.
Context {Store : Type}.
Implicit Types (s : Store) (it : Stream Store) (tr : list Action).

Lemma printed_app tr1 tr2 : printed (tr1 ++ tr2) = printed tr1 ++ printed tr2.
Proof. apply omap_app. Qed.

Lemma verify_views (updated : option Session.t) s :
  printed (verify updated s).1.1 = []
  ∧ submitted (verify updated s).1.1 = []
  ∧ returned (verify updated s).1.1 = []
  ∧ phases Verified (verify updated s).1.1 = Some Verified
  ∧ ∀ cur, turns_from cur (verify updated s).1.1 = option_list cur.
Proof.
  rewrite verify_run. destruct updated as [session|]; [|done]. cbn zeta.
  destruct (truthy _); [|done]. by destruct (str _).
Qed.

Lemma turns_from_mentor_lines cur (ts : list string) tr :
  turns_from cur (map mentor_line ts ++ tr) = turns_from cur tr.
Proof. induction ts as [|t ts IH]; [done|]. exact IH. Qed.

Lemma turns_from_events (m : Content) (evs evl : list Event) (b : bool) tr :
  turns_from (Some (m, evs, b))
    (flat_map (λ ev, Received ev :: map mentor_line (text_fragments ev)) evl ++ tr)
  = turns_from (Some (m, evs ++ evl, b)) tr.
Proof.
  revert evs. induction evl as [|ev evl IH]; intros evs.
  - by rewrite app_nil_r.
  - cbn [flat_map]. rewrite <- !app_assoc. cbn [app turns_from fmap option_fmap option_map].
    unfold add_event. cbn [fst snd]. rewrite turns_from_mentor_lines, IH.
    by rewrite <- app_assoc.
Qed.

Lemma turns_from_turn_trace cur (prompt : string) it tr :
  turns_from cur (turn_trace prompt it ++ tr) =
  option_list cur ++ turns_from (Some (user_message prompt, events it, exhausted it)) tr.
Proof.
  unfold turn_trace, stream_trace. rewrite <- !app_assoc. cbn [app turns_from].
  f_equal. rewrite turns_from_events. cbn [app].
  by destruct (exhausted it).
Qed.

End Views.

Section DriverClaims.
Context {Store : Type} (adk : Collaborators Store).
Implicit Types (s : Store) (it : Stream Store) (ev : Event).

(** C8.  A turn prints the user line and calls the runner; then, for each
    event of the stream in the order received, it prints the event's text
    fragments, one [MENTOR: ] write per fragment, before the next event is
    taken, and nothing for an event without fragments; when the stream
    ends it prints the closing newline.  A stream that raises is consumed
    up to the exception, which leaves the turn. *)
Theorem turn_prints_text_fragments (runner : Runner) (prompt : string) s :
  let it := run_async adk runner user_id session_id (user_message prompt) s in
  trace_of (turn adk runner prompt s) =
    [Stdout ((newline +:+ "USER: " +:+ prompt) +:+ newline);
     CallRunAsync user_id session_id (user_message prompt)]
    ++ flat_map (λ ev, Received ev :: map (λ t, Stdout ("MENTOR: " +:+ t)) (text_fragments ev))
                (events it)
    ++ (if exhausted it then [StreamEnd; Stdout newline] else [])
  ∧ result_of (turn adk runner prompt s) = outcome it
  ∧ (∀ ev s', text_fragments ev = [] → on_event ev s' = ([], s', Ok tt)).
Proof.
  cbn zeta. rewrite turn_run. cbn zeta. split; [|split; [reflexivity|]].
  - unfold trace_of, turn_trace, stream_trace. cbn [fst].
    rewrite <- !app_assoc. by destruct (exhausted _).
  - intros ev s' Hnone. by rewrite on_event_run, Hnone.
Qed.

Lemma turns_after_greeting (session : Session.t) (tr : list Action) :
  turns_from None (greeting ++ created session :: tr) = turns_from None tr.
Proof. reflexivity. Qed.

Lemma phases_after_greeting (session : Session.t) (tr : list Action) :
  phases Uninitialized (greeting ++ created session :: tr) = phases SessionCreated tr.
Proof. reflexivity. Qed.

Lemma submitted_after_greeting (session : Session.t) (tr : list Action) :
  submitted (greeting ++ created session :: tr) = submitted tr.
Proof. reflexivity. Qed.

(** C6, as the code has it.  The turns of a run, read off its trace: if
    the session was created, the first turn was opened with the message
    "Hi, can you help me with Python?" and has received every event its
    stream yielded; the second turn, with the message "Okay, tell me about
    Stack and Heap.", was opened if and only if the first stream was
    consumed to its end, and has likewise received every event of its
    stream.  The trace follows the driver's phases.  A run that completes
    has submitted exactly the two messages, in this order, each turn
    consumed to the end of its stream. *)
Theorem prompts_submitted_in_order (MODEL_NAME : string) :
  let run := main adk MODEL_NAME in
  let first := {| parts := Some [ {| text := Some "Hi, can you help me with Python?" |} ] |} in
  let second :=
    {| parts := Some [ {| text := Some "Okay, tell me about Stack and Heap." |} ] |} in
  turns (trace_of run) =
    match (creation adk).2 with
    | Raise _ => []
    | Ok _ =>
        (first, events (first_stream adk MODEL_NAME), exhausted (first_stream adk MODEL_NAME))
        :: (if exhausted (first_stream adk MODEL_NAME)
            then [(second, events (second_stream adk MODEL_NAME),
                   exhausted (second_stream adk MODEL_NAME))]
            else [])
    end
  ∧ is_Some (phases Uninitialized (trace_of run))
  ∧ (result_of run = Ok tt →
     turns (trace_of run) =
       [(first, events (first_stream adk MODEL_NAME), true);
        (second, events (second_stream adk MODEL_NAME), true)]
     ∧ submitted (trace_of run) = [first; second]
     ∧ phases Uninitialized (trace_of run) = Some Verified).
Proof.
  cbn zeta. unfold turns. path_cases adk MODEL_NAME.
  - destruct (verify_views updated (refetch adk MODEL_NAME).1)
      as (_ & Hsub & _ & Hph & Hturns).
    rewrite <- !app_assoc. cbn [app].
    rewrite turns_after_greeting, phases_after_greeting, submitted_after_greeting.
    rewrite !turns_from_turn_trace. cbn [option_list app turns_from].
    rewrite Hturns. cbn [option_list].
    rewrite !phases_app, phases_turn_trace by auto.
    rewrite !submitted_app, !submitted_turn_trace.
    rewrite !exhausted_of_outcome, Hturn1, Hturn2. cbn [mbind option_bind].
    rewrite phases_app, phases_turn_trace by auto.
    rewrite exhausted_of_outcome, Hturn2. cbn [mbind option_bind phases step].
    rewrite (submitted_cons_other (ReturnedSession updated)) by done.
    rewrite Hph, Hsub. split; [done|]. split; [by eexists|]. done.
  - rewrite <- !app_assoc. cbn [app].
    rewrite turns_after_greeting, phases_after_greeting.
    rewrite turns_from_turn_trace.
    rewrite <- (app_nil_r (turn_trace "Okay, tell me about Stack and Heap." _)) at 1.
    rewrite turns_from_turn_trace. cbn [option_list app turns_from].
    rewrite !phases_app, phases_turn_trace by auto.
    rewrite !exhausted_of_outcome, Hturn1, Hturn2. cbn [mbind option_bind].
    rewrite phases_turn_trace by auto.
    split; [done|]. split; [by eexists|]. done.
  - rewrite <- !app_assoc. cbn [app].
    rewrite turns_after_greeting, phases_after_greeting.
    rewrite turns_from_turn_trace.
    rewrite <- (app_nil_r (turn_trace "Okay, tell me about Stack and Heap." _)) at 1.
    rewrite turns_from_turn_trace. cbn [option_list app turns_from].
    rewrite !phases_app, phases_turn_trace by auto.
    rewrite !exhausted_of_outcome, Hturn1, Hturn2. cbn [mbind option_bind].
    rewrite phases_turn_trace by auto.
    split; [done|]. split; [by eexists|]. done.
  - rewrite turns_after_greeting, phases_after_greeting.
    rewrite <- (app_nil_r (turn_trace "Hi, can you help me with Python?" _)) at 1.
    rewrite turns_from_turn_trace. cbn [option_list app turns_from].
    rewrite phases_turn_trace by auto.
    rewrite !exhausted_of_outcome, Hturn1.
    split; [done|]. split; [by eexists|]. done.
  - split; [done|]. split; [by eexists|]. done.
Qed.

Lemma returned_unless_reached (session : Session.t) it1 it2 :
  returned ((greeting ++ created session
               :: turn_trace "Hi, can you help me with Python?" it1)
            ++ turn_trace "Okay, tell me about Stack and Heap." it2) = [].
Proof. by rewrite returned_app, returned_first_turn, returned_turn_trace. Qed.

(** A run that has received the answer of the final lookup has logged the
    session-creation record before it, and goes on with the verification
    step, whose result is the result of the run. *)
Lemma run_after_refetch (MODEL_NAME : string) (updated : option Session.t) :
  returned (trace_of (main adk MODEL_NAME)) = [updated] →
  ∃ (sid : string) (tr : list Action) (s : Store),
    trace_of (main adk MODEL_NAME) = tr ++ ReturnedSession updated :: (verify updated s).1.1
    ∧ logs tr = [(INFO, "Session created successfully: " +:+ sid
                        +:+ " for user " +:+ user_id)]
    ∧ result_of (main adk MODEL_NAME) = (verify updated s).2.
Proof.
  path_cases adk MODEL_NAME.
  - destruct (verify_views updated0 (refetch adk MODEL_NAME).1) as (_ & _ & Hret & _).
    rewrite returned_app, returned_unless_reached.
    cbn [app returned omap list_omap].
    fold (returned (verify updated0 (refetch adk MODEL_NAME).1).1.1).
    rewrite Hret. intros [= ->].
    exists (Session.id session). eexists. exists (refetch adk MODEL_NAME).1.
    split; [reflexivity|]. split; [|reflexivity].
    by rewrite logs_app, logs_first_turn, logs_turn_trace.
  - by rewrite returned_unless_reached.
  - by rewrite returned_unless_reached.
  - by rewrite returned_first_turn.
  - done.
Qed.

Lemma logs_cons_returned (r : option Session.t) (tr : list Action) :
  logs (ReturnedSession r :: tr) = logs tr.
Proof. reflexivity. Qed.


(** C9.  A run in which [get_session] has returned no session completes
    without raising; receiving that answer is its last action, and the
    record about session creation is all it has logged: no warning and no
    preview. *)
Theorem absent_session_skips_verification (MODEL_NAME : string) :
  let run := main adk MODEL_NAME in
  returned (trace_of run) = [None] →
  result_of run = Ok tt
  ∧ last (trace_of run) = Some (ReturnedSession None)
  ∧ ∃ sid,
      logs (trace_of run) =
        [(INFO, "Session created successfully: " +:+ sid +:+ " for user " +:+ user_id)].
Proof.
  cbn zeta. intros Hret.
  destruct (run_after_refetch MODEL_NAME None Hret) as (sid & tr & s & -> & Hlogs & ->).
  rewrite verify_run. cbn [fst snd]. split; [done|]. split; [by rewrite last_app|].
  exists sid. by rewrite logs_app, logs_cons_returned, Hlogs.
Qed.

End DriverClaims.

(** ** The instruction of each turn *)

Section Framework.
Context (model : Adk.Model).
Implicit Types (s : Adk.Store) (session : Session.t) (a : LlmAgent).

Lemma stream_requests a key s session last_text err (its : list Adk.ReplyItem) :
  Adk.requests (final (Adk.stream a key s session last_text err its)) = Adk.requests s.
Proof.
  revert session last_text. induction its as [|it its IH]; intros session last_text.
  - cbn [Adk.stream]. by destruct err.
  - cbn [Adk.stream final]. apply IH.
Qed.

Lemma stream_keeps_session a key s session last_text err (its : list Adk.ReplyItem) :
  is_Some (Adk.sessions (final (Adk.stream a key s session last_text err its)) !! key).
Proof.
  revert session last_text. induction its as [|it its IH]; intros session last_text.
  - cbn [Adk.stream]. destruct err; cbn [final Adk.put_session Adk.sessions];
      rewrite lookup_insert_eq; by eexists.
  - cbn [Adk.stream final]. apply IH.
Qed.

(** A turn sends the model one request, and its instruction is what the
    agent's instruction source gives on the state the session has in the
    store at that moment. *)
Lemma run_async_request (runner : Runner) (user sid : string) (msg : Content) s session :
  Adk.sessions s !! (app_name runner, user, sid) = Some session →
  Adk.requests (final (run_async (Adk.collaborators model) runner user sid msg s)) =
  Adk.requests s ++
    match Adk.canonical_instruction (agent runner) {| state := Session.state session |} with
    | Ok text => [ {| Adk.system_instruction := text; Adk.new_message := msg |} ]
    | Raise _ => []
    end.
Proof.
  intros Hsession. cbn [run_async Adk.collaborators]. unfold Adk.run_async.
  rewrite Hsession. destruct (Adk.canonical_instruction _ _) as [text|e].
  - by rewrite stream_requests.
  - by rewrite app_nil_r.
Qed.

Lemma run_async_keeps_session (runner : Runner) (user sid : string) (msg : Content) s :
  is_Some (Adk.sessions s !! (app_name runner, user, sid)) →
  is_Some (Adk.sessions (final (run_async (Adk.collaborators model) runner user sid msg s))
             !! (app_name runner, user, sid)).
Proof.
  intros [session Hsession]. cbn [run_async Adk.collaborators]. unfold Adk.run_async.
  rewrite Hsession. destruct (Adk.canonical_instruction _ _) as [text|e].
  - apply stream_keeps_session.
  - cbn [final]. by rewrite Hsession.
Qed.

Lemma initial_instruction :
  dynamic_persona_provider {| state := initial_state |} =
  Ok "You are a strict Senior Tech Lead. You are currently mentoring a user with the rank of 'Junior Developer'. The current discussion topic is locked to: 'Memory Management'. If the user asks about anything else, politely refuse and steer back to Memory Management. Keep answers concise and technical.".
Proof. reflexivity. Qed.

Lemma create_session_fresh :
  create_session (Adk.collaborators model) app_name_ user_id session_id initial_state
    (InMemorySessionService (Adk.collaborators model)) =
  ({| Adk.sessions :=
        {[ (app_name_, user_id, session_id) :=
             Stub.new_session app_name_ user_id session_id initial_state ]};
      Adk.requests := [] |},
   Ok (Stub.new_session app_name_ user_id session_id initial_state)).
Proof.
  cbn [create_session InMemorySessionService Adk.collaborators].
  unfold Adk.create_session, Adk.empty. cbn [Adk.sessions Adk.requests].
  by rewrite lookup_empty, insert_empty.
Qed.

(** A static instruction is the same text whatever the state. *)
Lemma static_instruction_ignores_state a (text : string) (ctx1 ctx2 : ReadonlyContext) :
  instruction a = Static text →
  Adk.canonical_instruction a ctx1 = Adk.canonical_instruction a ctx2.
Proof. unfold Adk.canonical_instruction. by intros ->. Qed.

(** C1.  The agent holds the provider itself.  Whatever the model answers,
    a turn started on a store sends the model the text the provider returns
    for the state the session has in that store, and sends nothing when the
    provider raises; and in [main], when the first turn's stream has ended,
    the requests the model has received carry the provider's text for the
    initial state and then its text for the state the session has after the
    first turn. *)
Theorem instruction_recomputed_each_turn (MODEL_NAME : string) :
  let adk := Adk.collaborators model in
  let runner := {| agent := root_agent MODEL_NAME; app_name := app_name_ |} in
  instruction (agent runner) = Dynamic dynamic_persona_provider
  ∧ (∀ s session (prompt : string),
       Adk.sessions s !! (app_name_, user_id, session_id) = Some session →
       Adk.requests (final (run_async adk runner user_id session_id (user_message prompt) s))
       = Adk.requests s ++
           match dynamic_persona_provider {| state := Session.state session |} with
           | Ok text => [ {| Adk.system_instruction := text;
                             Adk.new_message := user_message prompt |} ]
           | Raise _ => []
           end)
  ∧ (let s0 := (create_session adk app_name_ user_id session_id initial_state
                  (InMemorySessionService adk)).1 in
     let it1 := run_async adk runner user_id session_id
                  (user_message "Hi, can you help me with Python?") s0 in
     exhausted it1 = true →
     ∃ session1 text0,
       Adk.sessions (final it1) !! (app_name_, user_id, session_id) = Some session1
       ∧ dynamic_persona_provider {| state := initial_state |} = Ok text0
       ∧ map Adk.system_instruction (Adk.requests (store_of (main adk MODEL_NAME))) =
         text0 :: match dynamic_persona_provider {| state := Session.state session1 |} with
                  | Ok text1 => [text1]
                  | Raise _ => []
                  end).
Proof.
  cbn zeta. split; [reflexivity|]. split.
  - intros s session prompt Hsession.
    by apply (run_async_request {| agent := root_agent MODEL_NAME; app_name := app_name_ |}).
  - pose proof (main_run (Adk.collaborators model) MODEL_NAME) as Hrun.
    cbn zeta in Hrun. rewrite create_session_fresh in Hrun |- *. cbn [fst].
    set (session0 := Stub.new_session app_name_ user_id session_id initial_state) in *.
    set (s0 := {| Adk.sessions := {[ (app_name_, user_id, session_id) := session0 ]};
                  Adk.requests := [] |}) in *.
    set (runner := {| agent := root_agent MODEL_NAME; app_name := app_name_ |}) in *.
    set (it1 := run_async (Adk.collaborators model) runner user_id session_id
                  (user_message "Hi, can you help me with Python?") s0) in *.
    set (it2 := run_async (Adk.collaborators model) runner user_id session_id
                  (user_message "Okay, tell me about Stack and Heap.") (final it1)) in *.
    intros Hdone. rewrite exhausted_of_outcome in Hdone.
    assert (Adk.sessions s0 !! (app_name runner, user_id, session_id) = Some session0)
      as Hs0 by apply lookup_singleton_eq.
    destruct (run_async_keeps_session runner user_id session_id
                (user_message "Hi, can you help me with Python?") s0 (mk_is_Some _ _ Hs0))
      as [session1 Hs1].
    fold it1 in Hs1. exists session1. eexists. split; [exact Hs1|].
    split; [exact initial_instruction|].
    assert (map Adk.system_instruction (Adk.requests (final it2)) =
            "You are a strict Senior Tech Lead. You are currently mentoring a user with the rank of 'Junior Developer'. The current discussion topic is locked to: 'Memory Management'. If the user asks about anything else, politely refuse and steer back to Memory Management. Keep answers concise and technical."
            :: match dynamic_persona_provider {| state := Session.state session1 |} with
               | Ok text1 => [text1]
               | Raise _ => []
               end) as Hreqs.
    { unfold it2. rewrite (run_async_request runner _ _ _ _ session1 Hs1).
      unfold it1. rewrite (run_async_request runner _ _ _ _ session0 Hs0).
      change (Adk.canonical_instruction (agent runner) {| state := Session.state session0 |})
        with (dynamic_persona_provider {| state := initial_state |}).
      change (Adk.canonical_instruction (agent runner) {| state := Session.state session1 |})
        with (dynamic_persona_provider {| state := Session.state session1 |}).
      rewrite initial_instruction.
      by destruct (dynamic_persona_provider {| state := Session.state session1 |}). }
    revert Hrun. revert Hdone.
    destruct (outcome it1) as [[]|e]; [intros _|intros; discriminate].
    destruct (outcome it2) as [[]|e]; cbn [get_session Adk.collaborators];
      unfold Adk.get_session;
      intros Hrun; rewrite Hrun; unfold store_of; cbn [fst snd]; by rewrite Hreqs.
Qed.

End Framework.

(** ** The claims on concrete runs *)

Lemma instruction_recomputed_each_turn_witness :
  ∃ session1 text0,
    Adk.sessions
      (final (run_async (Adk.collaborators Adk.topic_switching_model)
                {| agent := root_agent "gemini-2.5-flash"; app_name := app_name_ |}
                user_id session_id (user_message "Hi, can you help me with Python?")
                (create_session (Adk.collaborators Adk.topic_switching_model)
                   app_name_ user_id session_id initial_state
                   (InMemorySessionService
                      (Adk.collaborators Adk.topic_switching_model))).1))
      !! (app_name_, user_id, session_id) = Some session1
    ∧ dynamic_persona_provider {| state := initial_state |} = Ok text0
    ∧ map Adk.system_instruction
        (Adk.requests
           (store_of (main (Adk.collaborators Adk.topic_switching_model) "gemini-2.5-flash")))
      = text0 :: match dynamic_persona_provider {| state := Session.state session1 |} with
                 | Ok text1 => [text1]
                 | Raise _ => []
                 end.
Proof.
  exact (proj2 (proj2 (instruction_recomputed_each_turn Adk.topic_switching_model
                         "gemini-2.5-flash")) eq_refl).
Defined.

(** The first turn moves the topic from "Memory Management" to "Python";
    the instruction of the second turn names the new topic. *)
Example second_turn_sees_new_topic :
  map Adk.system_instruction
    (Adk.requests
       (store_of (main (Adk.collaborators Adk.topic_switching_model) "gemini-2.5-flash")))
  = ["You are a strict Senior Tech Lead. You are currently mentoring a user with the rank of 'Junior Developer'. The current discussion topic is locked to: 'Memory Management'. If the user asks about anything else, politely refuse and steer back to Memory Management. Keep answers concise and technical.";
     "You are a strict Senior Tech Lead. You are currently mentoring a user with the rank of 'Junior Developer'. The current discussion topic is locked to: 'Python'. If the user asks about anything else, politely refuse and steer back to Python. Keep answers concise and technical."].
Proof. vm_compute. reflexivity. Qed.

Lemma startup_requires_nonempty_key_witness :
  (Config.module ∅ {["GOOGLE_API_KEY" := ""]} = Raise missing_key
   ∧ program Stub.forgetful ∅ {["GOOGLE_API_KEY" := ""]} = ([], tt, Raise missing_key))
  ∧ (Config.module {["HOME" := "/root"]} {["GOOGLE_API_KEY" := "AIza-test"]} =
       Ok {| Config.GOOGLE_API_KEY := VStr "AIza-test";
             Config.MODEL_NAME := "gemini-2.5-flash" |}
     ∧ program Stub.forgetful {["HOME" := "/root"]} {["GOOGLE_API_KEY" := "AIza-test"]} =
       main Stub.forgetful "gemini-2.5-flash").
Proof.
  split.
  - apply (startup_requires_nonempty_key Stub.forgetful ∅ {["GOOGLE_API_KEY" := ""]}).
    right. reflexivity.
  - apply (startup_requires_nonempty_key Stub.forgetful
             {["HOME" := "/root"]} {["GOOGLE_API_KEY" := "AIza-test"]}).
    + reflexivity.
    + discriminate.
Defined.

Lemma prompts_submitted_in_order_witness :
  turns (trace_of (main (Adk.collaborators Adk.plain_model) "gemini-2.5-flash")) =
    [({| parts := Some [ {| text := Some "Hi, can you help me with Python?" |} ] |},
      events (first_stream (Adk.collaborators Adk.plain_model) "gemini-2.5-flash"), true);
     ({| parts := Some [ {| text := Some "Okay, tell me about Stack and Heap." |} ] |},
      events (second_stream (Adk.collaborators Adk.plain_model) "gemini-2.5-flash"), true)]
  ∧ submitted (trace_of (main (Adk.collaborators Adk.plain_model) "gemini-2.5-flash")) =
    [ {| parts := Some [ {| text := Some "Hi, can you help me with Python?" |} ] |};
      {| parts := Some [ {| text := Some "Okay, tell me about Stack and Heap." |} ] |} ]
  ∧ phases Uninitialized
      (trace_of (main (Adk.collaborators Adk.plain_model) "gemini-2.5-flash"))
    = Some Verified.
Proof.
  apply (proj2 (proj2 (prompts_submitted_in_order (Adk.collaborators Adk.plain_model)
                         "gemini-2.5-flash"))).
  vm_compute. reflexivity.
Defined.

(** C6, the run on which the unqualified rule fails: the first stream
    raises after one event, the exception leaves [main], and the second
    prompt is never submitted. *)
Lemma interrupted_run_submits_one_prompt : ¬ every_run_submits_both_prompts.
Proof.
  intros Hclaim. specialize (Hclaim interrupted "gemini-2.5-flash").
  assert (submitted (trace_of (main interrupted "gemini-2.5-flash")) =
          [user_message "Hi, can you help me with Python?"]) as Hone by reflexivity.
  rewrite Hone in Hclaim. discriminate Hclaim.
Qed.

(** A turn that raises ends the run: the second prompt is never submitted. *)
Example failing_turn_ends_run :
  submitted (trace_of (main (Adk.collaborators Adk.failing_model) "gemini-2.5-flash")) =
    [user_message "Hi, can you help me with Python?"]
  ∧ result_of (main (Adk.collaborators Adk.failing_model) "gemini-2.5-flash") =
    Raise (OtherError "ServerError" "503")
  ∧ phases Uninitialized
      (trace_of (main (Adk.collaborators Adk.failing_model) "gemini-2.5-flash"))
    = Some TurnInFlight.
Proof. vm_compute. auto. Qed.

Example refused_session_ends_run :
  trace_of (main Stub.refusing "gemini-2.5-flash") = greeting
  ∧ result_of (main Stub.refusing "gemini-2.5-flash") =
    Raise (OtherError "ConnectionError" "store unreachable").
Proof. split; reflexivity. Qed.

Lemma turn_prints_text_fragments_witness :
  on_event {| content := Some {| parts := Some [ {| text := Some "" |}; {| text := None |} ] |} |}
           Adk.empty
  = ([], Adk.empty, Ok tt).
Proof.
  apply (turn_prints_text_fragments (Adk.collaborators Adk.silent_model)
           {| agent := root_agent "gemini-2.5-flash"; app_name := app_name_ |}
           "Hi, can you help me with Python?" Adk.empty).
  reflexivity.
Defined.

(** What one turn of the plain model leaves on stdout. *)
Example plain_turn_output :
  printed (trace_of (turn (Adk.collaborators Adk.plain_model)
                       {| agent := root_agent "gemini-2.5-flash"; app_name := app_name_ |}
                       "Hi, can you help me with Python?"
                       (create_session (Adk.collaborators Adk.plain_model)
                          app_name_ user_id session_id initial_state Adk.empty).1))
  = [newline +:+ "USER: Hi, can you help me with Python?" +:+ newline;
     "MENTOR: Stay on "; "MENTOR: topic."; newline].
Proof. vm_compute. reflexivity. Qed.


(** The record of that run, as computed: 50 of the 70 characters. *)
Example long_advice_preview :
  last (trace_of (main (answering long_advice_session) "gemini-2.5-flash")) =
  Some (Log INFO "State 'last_mentor_advice': Prefer the stack for short-lived values; the heap ...").
Proof. vm_compute. reflexivity. Qed.

Lemma absent_session_skips_verification_witness :
  result_of (main Stub.forgetful "gemini-2.5-flash") = Ok tt
  ∧ last (trace_of (main Stub.forgetful "gemini-2.5-flash")) = Some (ReturnedSession None)
  ∧ ∃ sid,
      logs (trace_of (main Stub.forgetful "gemini-2.5-flash")) =
        [(INFO, "Session created successfully: " +:+ sid +:+ " for user " +:+ user_id)].
Proof.
  apply (absent_session_skips_verification Stub.forgetful "gemini-2.5-flash").
  reflexivity.
Defined.

(** A long answer is cut to its first 50 characters in the preview. *)
Example preview_is_cut_at_50 :
  slice_to 50 "Prefer the stack for short-lived values; the heap costs an allocation."
  = "Prefer the stack for short-lived values; the heap ".
Proof. reflexivity. Qed.

(** * Further properties of the driver, the formatter and the start-up *)

(** * Further properties of the driver, the formatter and the start-up *)

(** ** The run as a whole *)

Section RunProperties.
Context {Store : Type} (adk : Collaborators Store) (MODEL_NAME : string).
Implicit Types (it : Stream Store) (session : Session.t).

Lemma printed_stream_trace it :
  printed (stream_trace it) =
  map (λ t, "MENTOR: " +:+ t) (flat_map text_fragments (events it)).
Proof.
  unfold stream_trace. rewrite printed_app.
  assert (printed (if exhausted it then [StreamEnd] else []) = []) as ->
    by by destruct (exhausted it).
  rewrite app_nil_r. induction (events it) as [|ev evs IH]; [done|].
  cbn [flat_map]. rewrite printed_app, map_app, IH. f_equal.
  change (printed (map mentor_line (text_fragments ev)) =
          map (λ t, "MENTOR: " +:+ t) (text_fragments ev)).
  induction (text_fragments ev) as [|t ts IHt]; [done|]. cbn. f_equal. exact IHt.
Qed.

Lemma printed_turn_trace (prompt : string) it :
  exhausted it = true → printed (turn_trace prompt it) = turn_output prompt it.
Proof.
  intros Hdone. unfold turn_trace, turn_output. rewrite Hdone.
  rewrite !printed_app, printed_stream_trace. reflexivity.
Qed.


(** X1.  When the session cannot be created the run ends there with the
    collaborator's exception: the announcement of the initial state is all
    that reaches stdout, nothing is logged, no prompt is submitted and the
    session is not fetched. *)
Theorem failed_creation_ends_run (e : Exn) :
  let run := main adk MODEL_NAME in
  (creation adk).2 = Raise e →
  result_of run = Raise e
  ∧ printed (trace_of run) =
      ["--- INITIALIZING SESSION: {'user:role': 'Junior Developer', 'current_topic': 'Memory Management'} ---" +:+ newline]
  ∧ logs (trace_of run) = []
  ∧ submitted (trace_of run) = []
  ∧ returned (trace_of run) = [].
Proof.
  cbn zeta. intros Hfail. rewrite main_path, Hfail.
  unfold result_of, trace_of. cbn [fst snd]. repeat split; reflexivity.
Qed.


(** X3.  A run that completes has received the answer of the final lookup.
    A run that raises, whether in a collaborator or in the preview itself,
    has logged the record about session creation at most: neither the
    warning nor a preview. *)
Theorem raised_run_logs_no_verification :
  let run := main adk MODEL_NAME in
  (result_of run = Ok tt → length (returned (trace_of run)) = 1%nat)
  ∧ (∀ e, result_of run = Raise e →
       logs (trace_of run) =
       match (creation adk).2 with
       | Ok session =>
           [(INFO, "Session created successfully: " +:+ Session.id session
                   +:+ " for user " +:+ user_id)]
       | Raise _ => []
       end).
Proof.
  cbn zeta. path_cases adk MODEL_NAME.
  - destruct (verify_views updated (refetch adk MODEL_NAME).1) as (_ & _ & Hret & _).
    rewrite returned_app, returned_unless_reached.
    cbn [app returned omap list_omap].
    fold (returned (verify updated (refetch adk MODEL_NAME).1).1.1).
    rewrite Hret. split; [done|]. intros e.
    rewrite 2!logs_app, logs_first_turn, logs_turn_trace, logs_cons_returned.
    rewrite verify_run. destruct updated as [session'|]; [|done]. cbn zeta.
    destruct (truthy _); [|done]. by destruct (str _).
  - rewrite logs_app, logs_first_turn, logs_turn_trace. split; [done|]. by intros e0 _.
  - rewrite logs_app, logs_first_turn, logs_turn_trace. split; [done|]. by intros e0 _.
  - rewrite logs_first_turn. split; [done|]. by intros e0 _.
  - split; [done|]. by intros e0 _.
Qed.

(** X4.  What a completed run has written to stdout, in order: the
    announcement of the initial state, then for each of the two prompts the
    user line, the text fragments of that turn's stream each behind
    "MENTOR: ", and a newline.  The verification step writes nothing to
    stdout. *)
Theorem stdout_of_completed_run :
  let run := main adk MODEL_NAME in
  result_of run = Ok tt →
  printed (trace_of run) =
    ("--- INITIALIZING SESSION: {'user:role': 'Junior Developer', 'current_topic': 'Memory Management'} ---" +:+ newline)
    :: turn_output "Hi, can you help me with Python?" (first_stream adk MODEL_NAME)
    ++ turn_output "Okay, tell me about Stack and Heap." (second_stream adk MODEL_NAME).
Proof.
  cbn zeta. path_cases adk MODEL_NAME; try (by intros [=]). intros _.
  destruct (verify_views updated (refetch adk MODEL_NAME).1) as (Hout & _).
  rewrite 2!printed_app.
  change (printed (greeting ++ created session
                     :: turn_trace "Hi, can you help me with Python?"
                          (first_stream adk MODEL_NAME)))
    with (("--- INITIALIZING SESSION: {'user:role': 'Junior Developer', 'current_topic': 'Memory Management'} ---" +:+ newline)
          :: printed (turn_trace "Hi, can you help me with Python?"
                        (first_stream adk MODEL_NAME))).
  change (printed (ReturnedSession updated :: (verify updated (refetch adk MODEL_NAME).1).1.1))
    with (printed (verify updated (refetch adk MODEL_NAME).1).1.1).
  rewrite Hout, app_nil_r.
  rewrite !printed_turn_trace by (by rewrite exhausted_of_outcome, ?Hturn1, ?Hturn2).
  reflexivity.
Qed.

End RunProperties.


(** ** The verification step on any stored value *)

Section Verification.
Context {Store : Type} (adk : Collaborators Store) (MODEL_NAME : string).
Implicit Types (session : Session.t) (v : Val).

(** X5.  After the final lookup has returned a session, the run ends on
    the warning exactly when "last_mentor_advice" is absent from the
    session state or holds a value Python takes for false: None, False,
    0 or the empty string.  A key that is present with such a value is
    reported as empty. *)
Theorem warning_iff_absent_or_falsy session :
  let run := main adk MODEL_NAME in
  let advice := Session.state session !! "last_mentor_advice" in
  returned (trace_of run) = [Some session] →
  (last (trace_of run) = Some (Log WARNING "State 'last_mentor_advice' is empty!")
   ↔ advice = None ∨ ∃ v, advice = Some v ∧ falsy v).
Proof.
  cbn zeta. intros Hret.
  destruct (run_after_refetch adk MODEL_NAME (Some session) Hret)
    as (sid & tr & s & -> & _ & _).
  rewrite verify_run. cbn zeta. unfold get_or_none, get.
  destruct (Session.state session !! "last_mentor_advice") as [v|]; cbn [from_option id].
  - destruct (truthy v) eqn:Hv.
    + assert (¬ falsy v) as Hnot.
      { intros Hfalsy%truthy_false_iff. congruence. }
      split; [|by intros [[=] | (v' & [= <-] & Hfalsy)]].
      destruct (str v); cbn [fst]; rewrite last_app; cbn [last]; by intros [=].
    + cbn [fst]. rewrite last_app. split; [|done]. intros _. right. exists v.
      split; [done|]. by apply truthy_false_iff.
  - cbn [truthy fst]. rewrite last_app. split; [by left|done].
Qed.

(** X6.  A value that is not taken for false and prints in 50 characters
    or fewer is shown whole, and still followed by "...": the dots do not
    tell a cut value from a short one. *)
Theorem short_advice_is_shown_whole session v (text : string) :
  let run := main adk MODEL_NAME in
  returned (trace_of run) = [Some session] →
  Session.state session !! "last_mentor_advice" = Some v →
  ¬ falsy v →
  str v = Ok text →
  (String.length text ≤ 50)%nat →
  result_of run = Ok tt
  ∧ last (trace_of run) = Some (Log INFO ("State 'last_mentor_advice': " +:+ text +:+ "...")).
Proof.
  cbn zeta. intros Hret Hadvice Hv Hstr Hlen.
  destruct (run_after_refetch adk MODEL_NAME (Some session) Hret)
    as (sid & tr & s & -> & _ & ->).
  rewrite verify_run. cbn zeta. unfold get_or_none, get. rewrite Hadvice.
  cbn [from_option id].
  destruct (truthy v) eqn:Htruthy; [|by apply truthy_false_iff in Htruthy].
  rewrite Hstr, (slice_to_all 50 text Hlen). cbn [fst snd]. split; [done|].
  by rewrite last_app.
Qed.

End Verification.

(** ** The formatter on values of any type *)

Lemma string_length_app (a b : string) :
  String.length (a +:+ b) = (String.length a + String.length b)%nat.
Proof.
  induction a as [|ch a IH]; [reflexivity|].
  change (S (String.length (a +:+ b)) = S (String.length a + String.length b)).
  by rewrite IH.
Qed.

(** X7.  A value enters the instruction through its [str] only, and a key
    that is present is never replaced by the default: two states whose
    role and topic are both present, or both absent, and print alike get
    the same instruction, whatever the types of the values. *)
Theorem persona_sees_str_of_values (ctx1 ctx2 : ReadonlyContext) :
  str <$> state ctx1 !! "user:role" = str <$> state ctx2 !! "user:role" →
  str <$> state ctx1 !! "current_topic" = str <$> state ctx2 !! "current_topic" →
  dynamic_persona_provider ctx1 = dynamic_persona_provider ctx2.
Proof.
  intros Hrole Htopic. rewrite !persona_of_lookups.
  destruct (state ctx1 !! "user:role") as [v1|], (state ctx2 !! "user:role") as [v2|];
    destruct (state ctx1 !! "current_topic") as [w1|],
             (state ctx2 !! "current_topic") as [w2|];
    cbn in Hrole, Htopic; simplify_eq; cbn [from_option id];
    repeat match goal with H : str _ = str _ |- _ => rewrite H; clear H end;
    reflexivity.
Qed.

(** X8.  Whenever the formatter returns, also with values that are not
    strings, the instruction opens with the Senior Tech Lead sentence up to
    the quote before the role and closes with the sentence on concise
    answers, and between them the state contributes the text of the role
    once and the text of the topic twice: the length is 247 plus the
    length of the role text plus twice the length of the topic text. *)
Theorem persona_frame_is_fixed (ctx : ReadonlyContext) (text : string) :
  dynamic_persona_provider ctx = Ok text →
  ∃ role topic,
    str (default (VStr "Intern") (state ctx !! "user:role")) = Ok role
    ∧ str (default (VStr "General Chat") (state ctx !! "current_topic")) = Ok topic
    ∧ (∃ body, text = persona_head +:+ body +:+ persona_tail)
    ∧ String.length text = (247 + String.length role + 2 * String.length topic)%nat.
Proof.
  rewrite persona_of_lookups.
  destruct (str (default (VStr "Intern") (state ctx !! "user:role"))) as [role|e];
    [|by intros [=]].
  destruct (str (default (VStr "General Chat") (state ctx !! "current_topic")))
    as [topic|e]; [|by intros [=]].
  intros [= <-]. exists role, topic. split; [done|]. split; [done|]. split.
  - exists (role +:+ "'. " +:+ "The current discussion topic is locked to: '"
            +:+ topic +:+ "'. "
            +:+ "If the user asks about anything else, politely refuse and steer back to "
            +:+ topic).
    unfold persona_head, persona_tail. rewrite !string_app_assoc. reflexivity.
  - rewrite !string_length_app. cbn [String.length]. lia.
Qed.

(** ** Start-up: the environment and the [.env] file *)

(** X9.  [load_dotenv()] is called without [override], so a variable of
    the process environment shadows the [.env] file.  When the environment
    sets GOOGLE_API_KEY the file is not consulted for it: a non-empty
    value is the key, and an empty value makes the import raise even when
    the file holds a key.  When the environment does not set it the file's
    value decides. *)
Theorem environment_shadows_dotenv (environ dotenv : gmap string string) :
  (∀ v, environ !! "GOOGLE_API_KEY" = Some v →
     Config.module environ dotenv =
     if decide (v = "") then Raise missing_key
     else Ok {| Config.GOOGLE_API_KEY := VStr v; Config.MODEL_NAME := "gemini-2.5-flash" |})
  ∧ (environ !! "GOOGLE_API_KEY" = None →
     Config.module environ dotenv = Config.module dotenv ∅).
Proof.
  split.
  - intros v Hv. unfold Config.module, Config.load_dotenv, Config.getenv.
    rewrite (lookup_union_Some_l _ _ _ _ Hv). by destruct v.
  - intros Hnone. unfold Config.module, Config.load_dotenv, Config.getenv.
    by rewrite lookup_union_r, (right_id_L ∅ (∪)).
Qed.

(** ** The further properties on concrete runs *)

Lemma failed_creation_ends_run_witness :
  result_of (main Stub.refusing "gemini-2.5-flash") =
    Raise (OtherError "ConnectionError" "store unreachable")
  ∧ printed (trace_of (main Stub.refusing "gemini-2.5-flash")) =
      ["--- INITIALIZING SESSION: {'user:role': 'Junior Developer', 'current_topic': 'Memory Management'} ---" +:+ newline]
  ∧ logs (trace_of (main Stub.refusing "gemini-2.5-flash")) = []
  ∧ submitted (trace_of (main Stub.refusing "gemini-2.5-flash")) = []
  ∧ returned (trace_of (main Stub.refusing "gemini-2.5-flash")) = [].
Proof.
  apply (failed_creation_ends_run Stub.refusing "gemini-2.5-flash"). reflexivity.
Defined.


Lemma raised_run_logs_no_verification_witness :
  logs (trace_of (main unreachable_on_lookup "gemini-2.5-flash")) =
    [(INFO, "Session created successfully: " +:+ session_id +:+ " for user " +:+ user_id)]
  ∧ length (returned (trace_of (main (Adk.collaborators Adk.plain_model) "gemini-2.5-flash")))
    = 1%nat.
Proof.
  split.
  - apply (proj2 (raised_run_logs_no_verification unreachable_on_lookup "gemini-2.5-flash")
             (OtherError "TimeoutError" "lookup")).
    reflexivity.
  - apply (proj1 (raised_run_logs_no_verification (Adk.collaborators Adk.plain_model)
                    "gemini-2.5-flash")).
    vm_compute. reflexivity.
Defined.

Lemma stdout_of_completed_run_witness :
  printed (trace_of (main (Adk.collaborators Adk.plain_model) "gemini-2.5-flash")) =
    ("--- INITIALIZING SESSION: {'user:role': 'Junior Developer', 'current_topic': 'Memory Management'} ---" +:+ newline)
    :: turn_output "Hi, can you help me with Python?"
         (first_stream (Adk.collaborators Adk.plain_model) "gemini-2.5-flash")
    ++ turn_output "Okay, tell me about Stack and Heap."
         (second_stream (Adk.collaborators Adk.plain_model) "gemini-2.5-flash").
Proof.
  apply (stdout_of_completed_run (Adk.collaborators Adk.plain_model) "gemini-2.5-flash").
  vm_compute. reflexivity.
Defined.

Lemma warning_iff_absent_or_falsy_witness :
  last (trace_of (main (answering zero_advice_session) "gemini-2.5-flash")) =
  Some (Log WARNING "State 'last_mentor_advice' is empty!").
Proof.
  apply (warning_iff_absent_or_falsy (answering zero_advice_session) "gemini-2.5-flash"
           zero_advice_session); [reflexivity|].
  right. exists (VInt 0). split; [reflexivity|]. right. right. left. reflexivity.
Defined.

Lemma short_advice_is_shown_whole_witness :
  result_of (main (answering short_advice_session) "gemini-2.5-flash") = Ok tt
  ∧ last (trace_of (main (answering short_advice_session) "gemini-2.5-flash")) =
    Some (Log INFO ("State 'last_mentor_advice': " +:+ "topic." +:+ "...")).
Proof.
  apply (short_advice_is_shown_whole (answering short_advice_session) "gemini-2.5-flash"
           short_advice_session (VStr "topic.") "topic."); try reflexivity.
  - intros [[=] | [[=] | [[=] | [=]]]].
  - cbn. lia.
Defined.

Lemma persona_sees_str_of_values_witness :
  dynamic_persona_provider typed_context = dynamic_persona_provider untyped_context.
Proof.
  apply (persona_sees_str_of_values typed_context untyped_context);
    vm_compute; reflexivity.
Defined.

Lemma persona_frame_is_fixed_witness :
  ∃ role topic,
    str (default (VStr "Intern") (state full_context !! "user:role")) = Ok role
    ∧ str (default (VStr "General Chat") (state full_context !! "current_topic")) = Ok topic
    ∧ (∃ body,
         "You are a strict Senior Tech Lead. You are currently mentoring a user with the rank of 'Staff Engineer'. The current discussion topic is locked to: 'Rust'. If the user asks about anything else, politely refuse and steer back to Rust. Keep answers concise and technical."
         = persona_head +:+ body +:+ persona_tail)
    ∧ String.length "You are a strict Senior Tech Lead. You are currently mentoring a user with the rank of 'Staff Engineer'. The current discussion topic is locked to: 'Rust'. If the user asks about anything else, politely refuse and steer back to Rust. Keep answers concise and technical."
      = (247 + String.length role + 2 * String.length topic)%nat.
Proof.
  apply (persona_frame_is_fixed full_context). reflexivity.
Defined.

Lemma environment_shadows_dotenv_witness :
  Config.module {["GOOGLE_API_KEY" := ""]} {["GOOGLE_API_KEY" := "AIza-from-file"]} =
    Raise missing_key
  ∧ Config.module {["HOME" := "/root"]} {["GOOGLE_API_KEY" := "AIza-from-file"]} =
    Config.module {["GOOGLE_API_KEY" := "AIza-from-file"]} ∅.
Proof.
  split.
  - apply (proj1 (environment_shadows_dotenv {["GOOGLE_API_KEY" := ""]}
                    {["GOOGLE_API_KEY" := "AIza-from-file"]}) "").
    reflexivity.
  - apply (proj2 (environment_shadows_dotenv {["HOME" := "/root"]}
                    {["GOOGLE_API_KEY" := "AIza-from-file"]})).
    reflexivity.
Defined.
